(** * agentception: the sandboxed code-execution tools

    A shallow embedding of [tools/code_execution.py] (class
    [CodeExecutionTools]) and of the code extraction of
    [tools/gemini_tools.py] (class [GeminiTools]), with the properties the
    design document states about them.

    Layout:
    - [PyString]: Python [str] values and the few [str] methods the tools call;
    - [Extract]: [GeminiTools.extract_python_code_block];
    - [Deps]: the list search and evaluation of [analyze_dependencies], and
      the [streamlit] guard of [run_streamlit_app];
    - [Tools]: the file system, the collaborators and the sub-processes as
      an explicit world, and the methods of [CodeExecutionTools] over it;
    - [Examples]: concrete documents, replies and runs;
    - the theorems, grouped by the function they are about. *)

From Stdlib Require Import NArith ZArith String Ascii List Bool Lia.
From stdpp Require Import base option list gmap strings pretty.

#[local] Set Warnings "-register-all".

Local Open Scope N_scope.

(* ===================================================================== *)
(** ** Python strings *)
(* ===================================================================== *)

Module PyString.

(** A Python [str] is a sequence of Unicode code points.  Code points are
    kept as numbers, so that the line-boundary and white-space tables are the
    ones of CPython and not those of some byte encoding. *)
Definition pystr := list N.

(** An ASCII literal of the source, as a [pystr]. *)
Definition py (s : string) : pystr :=
  List.map N_of_ascii (list_ascii_of_string s).

Definition LF : N := 10.
Definition CR : N := 13.
Definition BACKSLASH : N := 92.

Definition str_eqb (a b : pystr) : bool := bool_decide (a = b).

(** [str.startswith(prefix)]. *)
Fixpoint startswith (s prefix : pystr) : bool :=
  match prefix, s with
  | [], _ => true
  | _ :: _, [] => false
  | p :: prefix', c :: s' => N.eqb c p && startswith s' prefix'
  end.

(** The code points for which [str.isspace] holds; [str.strip()] removes
    them at both ends. *)
Definition is_whitespace (c : N) : bool :=
  (9 <=? c) && (c <=? 13)
  || (28 <=? c) && (c <=? 32)
  || N.eqb c 133 || N.eqb c 160 || N.eqb c 5760
  || (8192 <=? c) && (c <=? 8202)
  || N.eqb c 8232 || N.eqb c 8233 || N.eqb c 8239 || N.eqb c 8287
  || N.eqb c 12288.

Fixpoint lstrip (s : pystr) : pystr :=
  match s with
  | [] => []
  | c :: s' => if is_whitespace c then lstrip s' else s
  end.

Definition rstrip (s : pystr) : pystr := rev (lstrip (rev s)).

(** [str.strip()] with no argument. *)
Definition strip (s : pystr) : pystr := rstrip (lstrip s).

(** The line boundaries of [str.splitlines]. *)
Definition is_linebreak (c : N) : bool :=
  (10 <=? c) && (c <=? 13)
  || (28 <=? c) && (c <=? 30)
  || N.eqb c 133 || N.eqb c 8232 || N.eqb c 8233.

(** [str.splitlines()]: the lines without their terminators; a carriage
    return followed by a line feed is one terminator; a terminator at the
    very end opens no further line. *)
Fixpoint splitlines (s : pystr) : list pystr :=
  match s with
  | [] => []
  | c :: rest =>
      if is_linebreak c then
        [] :: (if N.eqb c CR
               then match rest with
                    | d :: rest' =>
                        if N.eqb d LF then splitlines rest' else splitlines rest
                    | [] => splitlines rest
                    end
               else splitlines rest)
      else
        match splitlines rest with
        | [] => [[c]]
        | l :: ls => (c :: l) :: ls
        end
  end.

(** [sep.join(parts)]. *)
Fixpoint join (sep : pystr) (parts : list pystr) : pystr :=
  match parts with
  | [] => []
  | [p] => p
  | p :: ps => p ++ sep ++ join sep ps
  end.

End PyString.
Import PyString.

(* ===================================================================== *)
(** ** GeminiTools.extract_python_code_block *)
(* ===================================================================== *)

Module Extract.

Definition fence_python : pystr := py "```python".
Definition fence : pystr := py "```".

(** [line.strip().startswith("```python")] *)
Definition opens (line : pystr) : bool := startswith (strip line) fence_python.

(** [line.strip() == "```"] *)
Definition closes (line : pystr) : bool := str_eqb (strip line) fence.

(** One turn of the [for line in lines] loop over the two locals
    [in_code_block] and [code_lines]. *)
Definition step (st : bool * list pystr) (line : pystr) : bool * list pystr :=
  let '(in_code_block, code_lines) := st in
  if opens line then (true, code_lines)
  else if closes line && in_code_block then (false, code_lines)
  else if in_code_block then (in_code_block, code_lines ++ [line])
  else (in_code_block, code_lines).

Definition scan (lines : list pystr) : bool * list pystr :=
  fold_left step lines (false, []).

Definition extract_python_code_block (markdown : pystr) : pystr :=
  join [LF] (snd (scan (splitlines markdown))).

(** The lines the loop collects, by recursion on the remaining lines; the
    accumulator-free reading of [step] used in the proofs. *)
Fixpoint collected (in_code_block : bool) (lines : list pystr) : list pystr :=
  match lines with
  | [] => []
  | line :: rest =>
      if opens line then collected true rest
      else if closes line && in_code_block then collected false rest
      else if in_code_block then line :: collected true rest
      else collected false rest
  end.

(** What the design document asks for: the contents of the first fenced
    section only.  Written from the document's words, to be compared with
    [extract_python_code_block]. *)
Fixpoint spec_until_close (lines : list pystr) : list pystr :=
  match lines with
  | [] => []
  | line :: rest => if closes line then [] else line :: spec_until_close rest
  end.

Fixpoint spec_first_section (lines : list pystr) : list pystr :=
  match lines with
  | [] => []
  | line :: rest =>
      if opens line then spec_until_close rest else spec_first_section rest
  end.

Definition spec_first_fenced_section (markdown : pystr) : pystr :=
  join [LF] (spec_first_section (splitlines markdown)).

(** A fenced section of a document, with the prose in front of it. *)
Record fenced := {
  prose : list pystr;
  opener : pystr;
  body : list pystr;
  closer : pystr
}.

Definition section_lines (s : fenced) : list pystr :=
  prose s ++ opener s :: body s ++ [closer s].

Definition well_fenced (s : fenced) : Prop :=
  Forall (fun l => opens l = false) (prose s)
  /\ opens (opener s) = true
  /\ Forall (fun l => opens l = false /\ closes l = false) (body s)
  /\ opens (closer s) = false /\ closes (closer s) = true.

End Extract.

(* ===================================================================== *)
(** ** Python values, exceptions and results *)
(* ===================================================================== *)

Module Py.

(** The values that reach the tools: what [eval] hands back and what the
    result dictionaries hold.  [PyProcess] is a [subprocess.Popen] object,
    [PyObj] any other object, known by its identity only. *)
Inductive py_value :=
| PyNone
| PyBool (b : bool)
| PyInt (z : Z)
| PyStr (s : pystr)
| PyList (items : list py_value)
| PyProcess (pid : nat)
| PyObj (id : nat).

(** The exceptions the tools meet, all of them subclasses of [Exception];
    [str(e)] is the text each of them carries.  An exception outside
    [Exception], such as the [SystemExit] that [eval] raises when the text
    it is given calls [sys.exit], is not among them: no [except] clause of
    the tools catches it, and a call it ends has no result. *)
Inductive exn :=
| TimeoutExpired (text : pystr) (stdout stderr : pystr)
| CalledProcessError (text : pystr)
| TypeError (text : pystr)
| SyntaxError (text : pystr)
| OtherException (text : pystr).

Definition str_of_exn (e : exn) : pystr :=
  match e with
  | TimeoutExpired text _ _ => text
  | CalledProcessError text => text
  | TypeError text => text
  | SyntaxError text => text
  | OtherException text => text
  end.

(** A call either returns or raises. *)
Inductive outcome (A : Type) :=
| Ret (a : A)
| Raise (e : exn).
Arguments Ret {A} a.
Arguments Raise {A} e.

(** A Python [dict] with string keys. *)
Abbreviation dict := (gmap string py_value).

(** [x in items] for a string [x]: equality with a [str] element. *)
Definition is_str (x : pystr) (v : py_value) : bool :=
  match v with
  | PyStr s => str_eqb s x
  | _ => false
  end.

Definition str_in (x : pystr) (items : list py_value) : bool :=
  existsb (is_str x) items.

(** [sep.join(items)]: a [TypeError] unless every item is a [str]. *)
Fixpoint strings_of (items : list py_value) : option (list pystr) :=
  match items with
  | [] => Some []
  | PyStr s :: rest =>
      match strings_of rest with
      | Some ss => Some (s :: ss)
      | None => None
      end
  | _ :: _ => None
  end.

Definition join_values (sep : pystr) (items : list py_value) : outcome pystr :=
  match strings_of items with
  | Some ss => Ret (join sep ss)
  | None => Raise (TypeError (py "sequence item: expected str instance"))
  end.

End Py.
Import Py.

(* ===================================================================== *)
(** ** The list search of analyze_dependencies *)
(* ===================================================================== *)

Module Deps.

Definition LBRACKET : N := 91.
Definition RBRACKET : N := 93.

(** The text after the first opening bracket. *)
Fixpoint after_open (s : pystr) : option pystr :=
  match s with
  | [] => None
  | c :: rest => if N.eqb c LBRACKET then Some rest else after_open rest
  end.

(** The text in front of the first closing bracket. *)
Fixpoint until_close (s : pystr) : option pystr :=
  match s with
  | [] => None
  | c :: rest =>
      if N.eqb c RBRACKET then Some []
      else match until_close rest with
           | Some inner => Some (c :: inner)
           | None => None
           end
  end.

(** [re.search(r'\[.*?\]', text, re.DOTALL)] and [match.group()]: the
    leftmost opening bracket that has a closing bracket after it, up to the
    nearest such closing bracket.  When the first opening bracket has no
    closing bracket after it no later one has, so the search starts at the
    first opening bracket or fails. *)
Definition re_search (text : pystr) : option pystr :=
  match after_open text with
  | None => None
  | Some rest =>
      match until_close rest with
      | None => None
      | Some inner => Some (LBRACKET :: inner ++ [RBRACKET])
      end
  end.

(** The body of the [try] of [analyze_dependencies], given Python's [eval];
    the [except Exception] clause turns every exception into the empty
    list. *)
Definition parse_dependencies (py_eval : pystr -> outcome py_value)
    (deps_text : pystr) : list py_value :=
  match re_search deps_text with
  | Some group =>
      match py_eval group with
      | Ret (PyList deps_list) => deps_list
      | Ret _ => []
      | Raise _ => []
      end
  | None => []
  end.

(** [if "streamlit" not in dependencies: dependencies.append("streamlit")] *)
Definition streamlit : pystr := py "streamlit".

Definition add_streamlit (dependencies : list py_value) : list py_value :=
  if negb (str_in streamlit dependencies)
  then dependencies ++ [PyStr streamlit]
  else dependencies.

(** *** Python's [eval] on list displays of string literals

    [eval] is a builtin of the interpreter, not code of the repository: the
    tools take it as a parameter.  For closed examples this is [eval] on
    the fragment the collaborator is asked to answer in: a list display of
    plain string literals (either quote, no backslash and no line end
    inside), with blanks between the tokens and an optional trailing
    comma.  Outside the fragment the function answers [SyntaxError]; the
    examples stay inside it or use texts that Python rejects too. *)
Inductive lexer_state :=
| AtStart
| AfterOpen
| InString (quote : N) (acc : pystr)
| AfterItem
| AfterComma
| AtEnd
| Rejected.

Definition QUOTE : N := 39.
Definition DQUOTE : N := 34.
Definition COMMA : N := 44.

(** The blanks Python skips between the tokens of a bracketed display. *)
Definition is_blank (c : N) : bool :=
  N.eqb c 32 || N.eqb c 9 || N.eqb c 12 || N.eqb c LF || N.eqb c CR.

Definition lex_step (st : lexer_state * list py_value) (c : N)
    : lexer_state * list py_value :=
  let '(state, items) := st in
  match state with
  | AtStart => if N.eqb c LBRACKET then (AfterOpen, items) else (Rejected, items)
  | AfterOpen | AfterComma =>
      if is_blank c then (state, items)
      else if N.eqb c QUOTE || N.eqb c DQUOTE then (InString c [], items)
      else if N.eqb c RBRACKET then (AtEnd, items)
      else (Rejected, items)
  | InString quote acc =>
      if N.eqb c quote then (AfterItem, items ++ [PyStr acc])
      else if N.eqb c BACKSLASH || N.eqb c LF || N.eqb c CR || N.eqb c 0
      then (Rejected, items)
      else (InString quote (acc ++ [c]), items)
  | AfterItem =>
      if is_blank c then (AfterItem, items)
      else if N.eqb c COMMA then (AfterComma, items)
      else if N.eqb c RBRACKET then (AtEnd, items)
      else (Rejected, items)
  | AtEnd => if is_blank c then (AtEnd, items) else (Rejected, items)
  | Rejected => (Rejected, items)
  end.

Definition literal_eval (text : pystr) : outcome py_value :=
  match fold_left lex_step text (AtStart, []) with
  | (AtEnd, items) => Ret (PyList items)
  | _ => Raise (SyntaxError (py "invalid syntax"))
  end.

End Deps.

(* ===================================================================== *)
(** ** The world of CodeExecutionTools *)
(* ===================================================================== *)

Module Tools.
Import Deps.

(** *** What the tools act on *)

Inductive node :=
| File (content : pystr)
| Directory.

(** The three requests [generate_content] receives. *)
Inductive prompt :=
| AnalyzePrompt (code : pystr)
| RepairPrompt (stderr code : pystr) (dependencies : list py_value)
| ExtractPrompt (response : pystr).

(** The calls that leave the process, in the order they are made. *)
Inductive event :=
| Generate (p : prompt)
| CreateVenv (venv_dir : pystr)
| PipInstall (pip_path requirements_file : pystr) (manifest : option node)
| RunProgram (python_path file : pystr)
| Popen (streamlit_path file : pystr)
| Unlink (file : pystr)
| Rmtree (dir : pystr).

(** The file system, the counter behind [tempfile]'s fresh names and the
    calls made so far. *)
Record world := {
  files : gmap pystr node;
  next_tmp : nat;
  log : list event
}.

(** [subprocess.CompletedProcess] with captured output. *)
Record completed := {
  returncode : Z;
  stdout : pystr;
  stderr : pystr
}.

(** [generate_content(prompt)] and then [response.text]: either may raise. *)
Inductive reply :=
| GenerateRaises (e : exn)
| TextRaises (e : exn)
| Text (text : pystr).

(** [process.communicate(timeout=5)]: the process ended within the five
    seconds, or [subprocess.TimeoutExpired] was raised because it had not. *)
Inductive service :=
| Exited (c : completed)
| StillRunning (pid : nat).

(** Everything the tools do not decide themselves.  Each method makes each
    of these calls at most once, so one answer per call site describes
    every run. *)
Record environment := {
  os_nt : bool;                           (* os.name == "nt" *)
  py_eval : pystr -> outcome py_value;    (* the builtin eval *)
  analysis : reply;                       (* the dependency request *)
  venv_creation : outcome unit;           (* python -m venv, check=True:
                                             the directory exists afterwards
                                             when the call returns *)
  installer : outcome completed;          (* pip install -r *)
  first_run : outcome completed;          (* the program, timeout=30 *)
  repair : reply;                         (* the repair request *)
  extraction : reply;                     (* the request of return_code *)
  second_run : outcome completed;         (* the fixed program, timeout=30 *)
  service_start : outcome service         (* Popen and communicate *)
}.

(** *** Calls that change a state [S] and may raise *)

Definition M (S A : Type) : Type := S -> outcome A * S.

Definition ret {S A} (a : A) : M S A := fun s => (Ret a, s).
Definition raise {S A} (e : exn) : M S A := fun s => (Raise e, s).

Definition bind {S A B} (m : M S A) (k : A -> M S B) : M S B :=
  fun s => match m s with
           | (Ret a, s') => k a s'
           | (Raise e, s') => (Raise e, s')
           end.

Notation "'let*' x ':=' m 'in' k" := (bind m (fun x => k))
  (at level 10, x name, m at level 200, k at level 200,
   format "'[v' 'let*'  x  ':='  m  'in' '/' k ']'").

Definition of_outcome {S A} (o : outcome A) : M S A := fun s => (o, s).

(** [try: body except Exception as e: handler(e)] *)
Definition try_except {S A} (body : M S A) (handler : exn -> M S A) : M S A :=
  fun s => match body s with
           | (Ret a, s') => (Ret a, s')
           | (Raise e, s') => handler e s'
           end.

(** [try: body finally: cleanup], for a [cleanup] that does not raise. *)
Definition try_finally {S A} (body : M S A) (cleanup : M S unit) : M S A :=
  fun s => let '(r, s') := body s in (r, snd (cleanup s')).

(** *** Primitive calls *)

Definition record (e : event) : M world unit :=
  fun w => (Ret tt, {| files := files w; next_tmp := next_tmp w;
                       log := log w ++ [e] |}).

(** [f.write(content)] on a file opened for writing.  The write is taken
    to succeed; in the source it raises [UnicodeEncodeError] for a text
    that the encoding of the locale cannot hold. *)
Definition write_file (name content : pystr) : M world unit :=
  fun w => (Ret tt, {| files := <[name := File content]> (files w);
                       next_tmp := next_tmp w; log := log w |}).

Definition make_directory (name : pystr) : M world unit :=
  fun w => (Ret tt, {| files := <[name := Directory]> (files w);
                       next_tmp := next_tmp w; log := log w |}).

Definition remove (name : pystr) : M world unit :=
  fun w => (Ret tt, {| files := delete name (files w);
                       next_tmp := next_tmp w; log := log w |}).

(** [os.path.exists(name)] *)
Definition exists_path (name : pystr) : M world bool :=
  fun w => (Ret (bool_decide (is_Some (files w !! name))), w).

(** [tempfile.NamedTemporaryFile(mode='w', suffix=suffix, delete=False)]:
    an empty file under a name not handed out before. *)
Definition temp_name (n : nat) (suffix : pystr) : pystr :=
  py "/tmp/tmp" ++ py (pretty n) ++ suffix.

Definition named_temporary_file (suffix : pystr) : M world pystr :=
  fun w => let name := temp_name (next_tmp w) suffix in
           (Ret name, {| files := <[name := File []]> (files w);
                         next_tmp := S (next_tmp w); log := log w |}).

(** [os.path.join(a, b, c)] *)
Definition path_join (nt : bool) (a b c : pystr) : pystr :=
  let sep := if nt then [BACKSLASH] else py "/" in
  a ++ sep ++ b ++ sep ++ c.

(** [os.path.join(venv_dir, "bin", name) if os.name != "nt"
     else os.path.join(venv_dir, "Scripts", name)] *)
Definition venv_script (nt : bool) (venv_dir name : pystr) : pystr :=
  if negb nt then path_join nt venv_dir (py "bin") name
  else path_join nt venv_dir (py "Scripts") name.

(** [generate_content(prompt)] followed by [response.text], where the two
    are not told apart. *)
Definition generate (p : prompt) (r : reply) : M world pystr :=
  let* _ := record (Generate p) in
  match r with
  | GenerateRaises e => raise e
  | TextRaises e => raise e
  | Text text => ret text
  end.

(** *** CodeExecutionTools *)

(** [analyze_dependencies]: the request is made outside the [try], so its
    failure reaches the caller; reading [response.text] and everything
    after it is inside. *)
Definition analyze_dependencies (env : environment) (code : pystr)
    : M world (list py_value) :=
  let* _ := record (Generate (AnalyzePrompt code)) in
  match analysis env with
  | GenerateRaises e => raise e
  | TextRaises _ => ret []
  | Text deps_text => ret (parse_dependencies (py_eval env) deps_text)
  end.

(** [create_requirements_file]: the file exists before the lines are
    joined, and stays when joining raises. *)
Definition create_requirements_file (dependencies : list py_value)
    : M world pystr :=
  let* name := named_temporary_file (py ".txt") in
  let* content := of_outcome (join_values [LF] dependencies) in
  let* _ := write_file name content in
  ret name.

(** The dictionary [setup_venv] returns has the same four keys on every
    path. *)
Record venv_setup := {
  setup_success : bool;
  setup_error : option pystr;
  setup_venv_dir : option pystr;
  setup_python_path : option pystr
}.

Definition setup_failed (error : pystr) : venv_setup :=
  {| setup_success := false; setup_error := Some error;
     setup_venv_dir := None; setup_python_path := None |}.

Definition temp_venv : pystr := py "temp_venv".

Definition setup_venv (env : environment) (requirements_file : pystr)
    : M world venv_setup :=
  let venv_dir := temp_venv in
  try_except
    (let* _ := record (CreateVenv venv_dir) in
     let* _ := of_outcome (venv_creation env) in
     let* _ := make_directory venv_dir in
     let pip_path := venv_script (os_nt env) venv_dir (py "pip") in
     let python_path := venv_script (os_nt env) venv_dir (py "python") in
     let* _ := (fun w => record (PipInstall pip_path requirements_file
                                   (files w !! requirements_file)) w) in
     let* process := of_outcome (installer env) in
     if negb (Z.eqb (returncode process) 0) then
       ret (setup_failed (stderr process))
     else
       ret {| setup_success := true; setup_error := None;
              setup_venv_dir := Some venv_dir;
              setup_python_path := Some python_path |})
    (fun e => ret (setup_failed (str_of_exn e))).

(** [subprocess.run([python_path, file], capture_output=True, text=True,
    timeout=30)] *)
Definition subprocess_run (python_path : option pystr) (file : pystr)
    (result : outcome completed) : M world completed :=
  match python_path with
  | None => raise (TypeError (py "expected str, bytes or os.PathLike object, not NoneType"))
  | Some python => let* _ := record (RunProgram python file) in of_outcome result
  end.

(** [GeminiTools.return_code] *)
Definition return_code (env : environment) (response : pystr) : M world pystr :=
  let* text := generate (ExtractPrompt response) (extraction env) in
  ret (Extract.extract_python_code_block text).

(** The text of [{value}] in an f-string, for a string or [None]. *)
Definition format_optional (value : option pystr) : pystr :=
  match value with
  | Some text => text
  | None => py "None"
  end.

Definition optional_str (value : option pystr) : py_value :=
  match value with
  | Some text => PyStr text
  | None => PyNone
  end.

Definition failure (error : pystr) : dict :=
  {[ "success"%string := PyBool false; "error"%string := PyStr error ]}.

Definition setup_failure (setup : venv_setup) : dict :=
  failure (py "Failed to set up virtual environment: "
             ++ format_optional (setup_error setup)).

(** The dictionary of the last [return] of the [try] of
    [_local_execute_with_deps]. *)
Definition execution_result (result : completed) (fixed_code : option pystr)
    : dict :=
  {[ "success"%string := PyBool (Z.eqb (returncode result) 0);
     "output"%string := PyStr (stdout result);
     "error"%string := (if negb (Z.eqb (returncode result) 0)
                        then PyStr (stderr result) else PyNone);
     "fixed_code"%string := optional_str fixed_code ]}.

(** The locals of [_local_execute_with_deps] that its [finally] reads. *)
Record activation := {
  temp_files : list pystr;
  venv_dir : option pystr;
  outside : world
}.

Definition lift {A} (m : M world A) : M activation A :=
  fun a => let '(r, w) := m (outside a) in
           (r, {| temp_files := temp_files a; venv_dir := venv_dir a;
                  outside := w |}).

Definition append_temp_file (name : pystr) : M activation unit :=
  fun a => (Ret tt, {| temp_files := temp_files a ++ [name];
                       venv_dir := venv_dir a; outside := outside a |}).

Definition set_venv_dir (dir : option pystr) : M activation unit :=
  fun a => (Ret tt, {| temp_files := temp_files a; venv_dir := dir;
                       outside := outside a |}).

(** [os.unlink(file)] with every error swallowed. *)
Definition unlink (file : pystr) : M world unit :=
  let* _ := record (Unlink file) in remove file.

Fixpoint unlink_all (names : list pystr) : M world unit :=
  match names with
  | [] => ret tt
  | file :: rest => let* _ := unlink file in unlink_all rest
  end.

(** [shutil.rmtree(dir)] with every error swallowed. *)
Definition rmtree (dir : pystr) : M world unit :=
  let* _ := record (Rmtree dir) in remove dir.

(** The [finally] clause of [_local_execute_with_deps]. *)
Definition cleanup : M activation unit :=
  fun a =>
    (let* _ := lift (unlink_all (temp_files a)) in
     match venv_dir a with
     | Some dir =>
         let* present := lift (exists_path dir) in
         if present then lift (rmtree dir) else ret tt
     | None => ret tt
     end) a.

(** The [try] clause of [_local_execute_with_deps]. *)
Definition local_execute_body (env : environment) (code : pystr)
    : M activation dict :=
  let* dependencies := lift (analyze_dependencies env code) in
  let* requirements_file := lift (create_requirements_file dependencies) in
  let* _ := append_temp_file requirements_file in
  let* setup := lift (setup_venv env requirements_file) in
  if negb (setup_success setup) then ret (setup_failure setup)
  else
    let* _ := set_venv_dir (setup_venv_dir setup) in
    let python_path := setup_python_path setup in
    let* code_file := lift (named_temporary_file (py ".py")) in
    let* _ := lift (write_file code_file code) in
    let* _ := append_temp_file code_file in
    let* result := lift (subprocess_run python_path code_file (first_run env)) in
    if negb (Z.eqb (returncode result) 0) then
      let* response := lift (generate (RepairPrompt (stderr result) code dependencies)
                                      (repair env)) in
      let* fixed_code := lift (return_code env response) in
      let* fixed_code_file := lift (named_temporary_file (py ".py")) in
      let* _ := lift (write_file fixed_code_file fixed_code) in
      let* _ := append_temp_file fixed_code_file in
      let* result := lift (subprocess_run python_path fixed_code_file
                                          (second_run env)) in
      ret (execution_result result (Some fixed_code))
    else
      ret (execution_result result None).

Definition _local_execute_with_deps (env : environment) (code : pystr)
    (w : world) : dict * world :=
  let start := {| temp_files := []; venv_dir := None; outside := w |} in
  match try_finally
          (try_except (local_execute_body env code)
                      (fun e => ret (failure (str_of_exn e))))
          cleanup start with
  | (Ret result, a) => (result, outside a)
  | (Raise e, a) => (failure (str_of_exn e), outside a)   (* not reached: the
                                                            handler returns *)
  end.

(** [_e2b_execute]: the constructor never sets [self.e2b_tools], so reading
    it raises and the [except] clause answers. *)
Definition _e2b_execute (code : pystr) (w : world) : dict * world :=
  ({[ "success"%string := PyBool false; "output"%string := PyNone;
      "error"%string :=
        PyStr (py "'CodeExecutionTools' object has no attribute 'e2b_tools'") ]},
   w).

Definition execute_code (execution_env : pystr) (env : environment)
    (code : pystr) (w : world) : dict * world :=
  if str_eqb execution_env (py "Local") then _local_execute_with_deps env code w
  else _e2b_execute code w.

(** [run_streamlit_app]: [None] is the value of a call that ends without
    reaching a [return]. *)
Definition started (pid : nat) (app_file : pystr) (dir : option pystr) : dict :=
  {[ "success"%string := PyBool true; "process"%string := PyProcess pid;
     "app_file"%string := PyStr app_file;
     "venv_dir"%string := optional_str dir ]}.

Definition streamlit_body (env : environment) (app_code : pystr)
    : M world (option dict) :=
  let* inferred := analyze_dependencies env app_code in
  let dependencies := add_streamlit inferred in
  let* requirements_file := create_requirements_file dependencies in
  let* setup := setup_venv env requirements_file in
  if negb (setup_success setup) then ret (Some (setup_failure setup))
  else
    let dir := setup_venv_dir setup in
    let* app_file := named_temporary_file (py ".py") in
    let* _ := write_file app_file app_code in
    match dir with
    | None => raise (TypeError (py "expected str, bytes or os.PathLike object, not NoneType"))
    | Some venv =>
        let streamlit_path := venv_script (os_nt env) venv (py "streamlit") in
        let* _ := record (Popen streamlit_path app_file) in
        let* state := of_outcome (service_start env) in
        match state with
        | Exited process =>
            if negb (Z.eqb (returncode process) 0)
            then ret (Some (failure (stderr process)))
            else ret None
        | StillRunning pid => ret (Some (started pid app_file dir))
        end
    end.

Definition run_streamlit_app (env : environment) (app_code : pystr)
    (w : world) : option dict * world :=
  match try_except (streamlit_body env app_code)
                   (fun e => ret (Some (failure (str_of_exn e)))) w with
  | (Ret result, w') => (result, w')
  | (Raise e, w') => (Some (failure (str_of_exn e)), w')   (* not reached *)
  end.

(** *** Reading a log *)

Definition is_repair_request (e : event) : bool :=
  match e with
  | Generate (RepairPrompt _ _ _) => true
  | _ => false
  end.

Definition is_run (e : event) : bool :=
  match e with
  | RunProgram _ _ => true
  | _ => false
  end.

Definition repair_requests (w : world) : nat :=
  length (List.filter is_repair_request (log w)).

Definition program_runs (w : world) : nat :=
  length (List.filter is_run (log w)).

(** The dependency list of a run, when the request for it does not raise:
    what [analyze_dependencies] returns. *)
Definition inferred (env : environment) : option (list py_value) :=
  match analysis env with
  | GenerateRaises _ => None
  | TextRaises _ => Some []
  | Text deps_text => Some (parse_dependencies (py_eval env) deps_text)
  end.

(** The directory a call of [setup_venv] hands to its caller. *)
Definition sandbox_of (r : outcome venv_setup * world) : option pystr :=
  match fst r with
  | Ret setup => setup_venv_dir setup
  | Raise _ => None
  end.

Definition empty_world : world :=
  {| files := ∅; next_tmp := 0; log := [] |}.

End Tools.

(* ===================================================================== *)
(** ** Concrete documents, replies and runs *)
(* ===================================================================== *)

Module Examples.
Import Deps Tools.

Definition nl : pystr := [LF].

(** A reply with two fenced sections. *)
Definition two_fences : pystr :=
  py "Here is the fix:" ++ nl ++
  py "```python" ++ nl ++
  py "a = 1" ++ nl ++
  py "```" ++ nl ++
  py "and a test for it:" ++ nl ++
  py "```python" ++ nl ++
  py "b = 2" ++ nl ++
  py "```" ++ nl.

Definition fix_section : Extract.fenced :=
  {| Extract.prose := [py "Here is the fix:"];
     Extract.opener := py "```python";
     Extract.body := [py "a = 1"];
     Extract.closer := py "```" |}.

Definition test_section : Extract.fenced :=
  {| Extract.prose := [py "and a test for it:"];
     Extract.opener := py "```python";
     Extract.body := [py "b = 2"];
     Extract.closer := py "```" |}.

Definition program : pystr := py "print(1/0)".

Definition succeeded : completed :=
  {| returncode := 0; stdout := py "1"; stderr := [] |}.

Definition crashed : completed :=
  {| returncode := 1; stdout := [];
     stderr := py "ZeroDivisionError: division by zero" |}.

Definition no_such_package : completed :=
  {| returncode := 1; stdout := [];
     stderr := py "ERROR: No matching distribution found for nosuchpackage" |}.

(** A POSIX host on which creating the environment succeeds and the
    collaborator answers every request. *)
Definition scenario (deps_reply : pystr) (pip first second : outcome completed)
    (started : outcome service) : environment :=
  {| os_nt := false;
     py_eval := literal_eval;
     analysis := Text deps_reply;
     venv_creation := Ret tt;
     installer := pip;
     first_run := first;
     repair := Text (py "The division by zero is removed.");
     extraction := Text two_fences;
     second_run := second;
     service_start := started |}.

Definition install_fails : environment :=
  scenario (py "['nosuchpackage']") (Ret no_such_package)
           (Ret succeeded) (Ret succeeded) (Ret (StillRunning 1)).

Definition always_fails : environment :=
  scenario (py "[]") (Ret succeeded) (Ret crashed) (Ret crashed)
           (Ret (StillRunning 1)).




Definition service_crashes : environment :=
  scenario (py "['pandas']") (Ret succeeded) (Ret succeeded) (Ret succeeded)
           (Ret (Exited crashed)).

Definition service_stays : environment :=
  scenario (py "['pandas']") (Ret succeeded) (Ret succeeded) (Ret succeeded)
           (Ret (StillRunning 7)).

Definition service_ends : environment :=
  scenario (py "['pandas']") (Ret succeeded) (Ret succeeded) (Ret succeeded)
           (Ret (Exited succeeded)).

Definition repeats_numpy : environment :=
  scenario (py "You need ['numpy', 'numpy'] for this.") (Ret succeeded)
           (Ret succeeded) (Ret succeeded) (Ret (StillRunning 1)).


Definition numpy : pystr := py "numpy".

(** Two requests for an environment, the second made in the world the
    first one leaves. *)
Definition first_request : outcome venv_setup * world :=
  setup_venv always_fails (py "/tmp/tmp0.txt") empty_world.

Definition second_request : outcome venv_setup * world :=
  setup_venv service_stays (py "/tmp/tmp1.txt") (snd first_request).

End Examples.

(* ===================================================================== *)
(** ** What the results and the logs are read for *)
(* ===================================================================== *)

Module Observations.
Import Deps Tools Examples.

(** The two forms of the dictionary [execute_code] returns: a success
    carries an output and [None] as its error, a failure carries the text
    of its error. *)
Definition well_shaped (result : dict) : Prop :=
  (result !! "success"%string = Some (PyBool true)
   /\ result !! "error"%string = Some PyNone
   /\ exists out, result !! "output"%string = Some (PyStr out))
  \/ (result !! "success"%string = Some (PyBool false)
      /\ exists text, result !! "error"%string = Some (PyStr text)).

(** The reply to the dependency request keeps [eval] inside the list
    displays of string literals: when the reply is a text with a bracket
    pair, the first such pair is a display that [literal_eval] reads, and
    [eval] gives the list it denotes.  On such a text [eval] calls nothing,
    so it can neither raise nor leave through [SystemExit]. *)
Definition literal_reply (env : environment) : Prop :=
  match analysis env with
  | Text deps_text =>
      match re_search deps_text with
      | Some group =>
          exists items, literal_eval group = Ret (PyList items)
                        /\ py_eval env group = Ret (PyList items)
      | None => True
      end
  | _ => True
  end.

(** The calls that delete something. *)
Definition is_removal (e : event) : bool :=
  match e with
  | Unlink _ | Rmtree _ => true
  | _ => false
  end.


(** A reply fenced without the word [python]. *)
Definition bare_fence : pystr :=
  py "```" ++ nl ++ py "print(1)" ++ nl ++ py "```" ++ nl.

(** A reply whose fence is never closed. *)
Definition open_fence : pystr :=
  py "Try this:" ++ nl ++ py "```python" ++ nl ++
  py "x = 1" ++ nl ++ py "print(x)".


Definition quota_exceeded : exn := OtherException (py "429 quota exceeded").

Definition request_fails : environment :=
  {| os_nt := false; py_eval := literal_eval;
     analysis := GenerateRaises quota_exceeded;
     venv_creation := Ret tt; installer := Ret succeeded;
     first_run := Ret succeeded;
     repair := Text []; extraction := Text [];
     second_run := Ret succeeded; service_start := Ret (StillRunning 1) |}.

(** [eval] on the one display of the example below that is outside the
    fragment of [literal_eval]. *)
Definition eval_with_numbers (text : pystr) : outcome py_value :=
  if str_eqb text (py "[1]") then Ret (PyList [PyInt 1]) else literal_eval text.

Definition number_in_list : environment :=
  {| os_nt := false; py_eval := eval_with_numbers;
     analysis := Text (py "[1]");
     venv_creation := Ret tt; installer := Ret succeeded;
     first_run := Ret succeeded;
     repair := Text []; extraction := Text [];
     second_run := Ret succeeded; service_start := Ret (StillRunning 1) |}.




End Observations.

(* ===================================================================== *)
(** ** More methods of Python strings *)
(* ===================================================================== *)

Module PyStringMore.

(** [needle in s] for two strings. *)
Fixpoint contains (s needle : pystr) : bool :=
  startswith s needle
  || match s with
     | [] => false
     | _ :: rest => contains rest needle
     end.

(** [s.split(sep)] for a separator of one character. *)
Fixpoint split_char (sep : N) (s : pystr) : list pystr :=
  match s with
  | [] => [[]]
  | c :: rest =>
      if N.eqb c sep then [] :: split_char sep rest
      else match split_char sep rest with
           | l :: ls => (c :: l) :: ls
           | [] => [[c]]
           end
  end.

(** [s.replace(old, new)] for a non-empty [old]: the occurrences of [old]
    are taken from the left and do not overlap.  [skip] counts the
    characters of an occurrence that are still to be passed over. *)
Fixpoint replace_from (old new : pystr) (skip : nat) (s : pystr) : pystr :=
  match s with
  | [] => []
  | c :: rest =>
      match skip with
      | S k => replace_from old new k rest
      | O =>
          if startswith s old
          then new ++ replace_from old new (length old - 1) rest
          else c :: replace_from old new 0 rest
      end
  end.

Definition replace (s old new : pystr) : pystr := replace_from old new 0 s.

(** [s.split()]: the maximal runs of characters that are not white space.
    [word] is the run being read. *)
Fixpoint words_from (word : pystr) (s : pystr) : list pystr :=
  match s with
  | [] => match word with [] => [] | _ => [word] end
  | c :: rest =>
      if is_whitespace c then
        match word with
        | [] => words_from [] rest
        | _ => word :: words_from [] rest
        end
      else words_from (word ++ [c]) rest
  end.

Definition split_whitespace (s : pystr) : list pystr := words_from [] s.

(** A word of a line: not empty, and with no white space inside. *)
Definition token (p : pystr) : Prop :=
  p <> [] /\ Forall (fun c => is_whitespace c = false) p.

End PyStringMore.
Import PyStringMore.

(* ===================================================================== *)
(** ** run_tests and validate_dependencies *)
(* ===================================================================== *)

Module Checks.
Import Tools.

(** The dictionary [run_tests] builds has the same three keys on every
    path. *)
Record test_report := {
  tests_success : bool;
  test_output : option pystr;
  test_errors : list pystr
}.

(** [run_tests].  [tests_exist] is the answer of
    [os.path.exists(os.path.join(app_dir, "tests"))] and [pytest] what
    [subprocess.run(["pytest", app_dir], ...)] does.  The one call that can
    raise comes before the first change of [results], so the [except]
    clause appends to the initial dictionary. *)
Definition run_tests (tests_exist : bool) (pytest : outcome completed)
    : test_report :=
  let results :=
    {| tests_success := false; test_output := None; test_errors := [] |} in
  if tests_exist then
    match pytest with
    | Ret process =>
        if Z.eqb (returncode process) 0 then
          {| tests_success := true;
             test_output := Some (stdout process);
             test_errors := test_errors results |}
        else
          {| tests_success := tests_success results;
             test_output := Some (stdout process);
             test_errors := test_errors results ++ [stderr process] |}
    | Raise e =>
        {| tests_success := tests_success results;
           test_output := test_output results;
           test_errors := test_errors results ++ [str_of_exn e] |}
    end
  else results.

(** The dictionary [validate_dependencies] builds. *)
Record validation := {
  valid : bool;
  installed : list pystr;
  validation_errors : list pystr
}.

Definition summary : pystr := py "Successfully installed".

(** One turn of [for line in process.stdout.split("\n")]. *)
Definition installed_step (found : list pystr) (line : pystr) : list pystr :=
  if contains line summary
  then split_whitespace (strip (replace line summary []))
  else found.

Definition installed_packages (text : pystr) : list pystr :=
  fold_left installed_step (split_char LF text) [].

Definition dot_temp_venv : pystr := py ".temp_venv".

(** The [try] and [except] clauses of [validate_dependencies]; both calls
    that can raise come before the first change of [results]. *)
Definition validate_body (env : environment) (requirements : pystr)
    : M world validation :=
  let venv_dir := dot_temp_venv in
  try_except
    (let* _ := record (CreateVenv venv_dir) in
     let* _ := of_outcome (venv_creation env) in
     let* _ := make_directory venv_dir in
     let pip_path := venv_dir ++ py "/bin/pip" in
     let* _ := (fun w => record (PipInstall pip_path requirements
                                   (files w !! requirements)) w) in
     let* process := of_outcome (installer env) in
     if Z.eqb (returncode process) 0 then
       ret {| valid := true;
              installed := installed_packages (stdout process);
              validation_errors := [] |}
     else
       ret {| valid := false; installed := [];
              validation_errors := [stderr process] |})
    (fun e => ret {| valid := false; installed := [];
                     validation_errors := [str_of_exn e] |}).

(** [validate_dependencies].  [rm] is what
    [subprocess.run(["rm", "-rf", venv_dir])] does in the [finally] clause:
    it removes the directory, or it raises because the program cannot be
    started, and then the exception leaves the method in place of the
    result. *)
Definition validate_dependencies (env : environment) (rm : outcome unit)
    (requirements : pystr) : M world validation :=
  fun w =>
    let '(r, w1) := validate_body env requirements w in
    let '(present, w2) := exists_path dot_temp_venv w1 in
    match present with
    | Ret true =>
        match (let* _ := record (Rmtree dot_temp_venv) in
               let* _ := of_outcome rm in
               remove dot_temp_venv) w2 with
        | (Ret _, w3) => (r, w3)
        | (Raise e, w3) => (Raise e, w3)
        end
    | _ => (r, w2)
    end.

End Checks.

(* ===================================================================== *)
(** ** AppManager: testing and debugging a generated app *)
(* ===================================================================== *)

Module AppChecks.
Import Tools.

(** The dictionary [test_app] builds; the key [test_output] is present
    only when the tests were run. *)
Record app_report := {
  app_success : bool;
  app_errors : list pystr;
  app_logs : list pystr;
  app_test_output : option pystr
}.

Definition add_error (text : pystr) (results : app_report) : app_report :=
  {| app_success := app_success results;
     app_errors := app_errors results ++ [text];
     app_logs := app_logs results;
     app_test_output := app_test_output results |}.

(** The part of the [try] clause of [test_app] that runs the tests:
    [Raise] when [subprocess.run(["pytest", app_dir], ...)] raises, with
    the dictionary as it is then. *)
Definition run_app_tests (tests_exist : bool) (pytest : outcome completed)
    (results : app_report) : app_report * option exn :=
  if tests_exist then
    match pytest with
    | Ret process =>
        let results :=
          {| app_success := app_success results;
             app_errors := app_errors results;
             app_logs := app_logs results;
             app_test_output := Some (stdout process) |} in
        if negb (Z.eqb (returncode process) 0)
        then (add_error (py "Tests failed") results, None)
        else (results, None)
    | Raise e => (results, Some e)
    end
  else (results, None).

(** [test_app].  [tests_exist] is the answer of
    [os.path.exists(os.path.join(app_dir, "tests"))], [pytest] what the run
    of the tests does and [app] what
    [subprocess.run(["python", .../app.py], ..., timeout=5)] does. *)
Definition test_app (tests_exist : bool) (pytest app : outcome completed)
    : app_report :=
  let results :=
    {| app_success := false; app_errors := []; app_logs := [];
       app_test_output := None |} in
  match run_app_tests tests_exist pytest results with
  | (results, Some e) => add_error (str_of_exn e) results
  | (results, None) =>
      match app with
      | Ret process =>
          let results :=
            {| app_success := app_success results;
               app_errors := app_errors results;
               app_logs := app_logs results ++ [stdout process];
               app_test_output := app_test_output results |} in
          if Z.eqb (returncode process) 0 then
            {| app_success := true;
               app_errors := app_errors results;
               app_logs := app_logs results;
               app_test_output := app_test_output results |}
          else add_error (stderr process) results
      | Raise e => add_error (str_of_exn e) results
      end
  end.

(** The dictionaries [debug_app] puts into [fixes]. *)
Inductive proposed_fix :=
| DependencyFix (module fix_text : pystr)
| SyntaxFix (error fix_text : pystr).

Definition is_dependency (f : proposed_fix) : bool :=
  match f with
  | DependencyFix _ _ => true
  | SyntaxFix _ _ => false
  end.

Definition module_not_found : pystr := py "ModuleNotFoundError".
Definition syntax_error : pystr := py "SyntaxError".
Definition APOSTROPHE : N := 39.

(** [error.split("'")[1]] *)
Definition quoted_module (error : pystr) : outcome pystr :=
  match split_char APOSTROPHE error with
  | _ :: module :: _ => Ret module
  | _ => Raise (OtherException (py "list index out of range"))
  end.

(** The loop [for error in error_info["errors"]] over the local [fixes]. *)
Fixpoint collect_fixes (errors : list pystr) (fixes : list proposed_fix)
    : outcome (list proposed_fix) :=
  match errors with
  | [] => Ret fixes
  | error :: rest =>
      if contains error module_not_found then
        match quoted_module error with
        | Ret module =>
            collect_fixes rest
              (fixes ++ [DependencyFix module (py "pip install " ++ module)])
        | Raise e => Raise e
        end
      else if contains error syntax_error then
        collect_fixes rest
          (fixes ++ [SyntaxFix error (py "Requires manual code review")])
      else collect_fixes rest fixes
  end.

(** [debug_app]: the list of fixes and [automated_fixes_possible]. *)
Definition debug_app (errors : list pystr) : outcome (list proposed_fix * bool) :=
  match collect_fixes errors [] with
  | Ret fixes => Ret (fixes, existsb is_dependency fixes)
  | Raise e => Raise e
  end.

End AppChecks.

(* ===================================================================== *)
(** ** AppManager: the library of saved apps *)
(* ===================================================================== *)

Module Manager.
Import Tools.

(** An entry of [library["apps"]], with the five keys [save_app] gives
    it. *)
Record app_info := {
  app_name : pystr;
  app_description : pystr;
  app_created_at : pystr;
  app_path : pystr;
  app_files : list pystr
}.

(** [self.library] *)
Record library := {
  apps : list app_info;
  last_updated : pystr
}.

(** The calls [save_app] makes on the file system. *)
Inductive disk_call :=
| Makedirs (path : pystr)
| WriteFile (path content : pystr)
| RemoveTree (path : pystr)
| DumpLibrary (lib : library).

(** What the interpreter and the file system answer. *)
Record host := {
  isalnum : N -> bool;                  (* str.isalnum on one character *)
  lower : pystr -> pystr;               (* str.lower *)
  os_path_join : pystr -> pystr -> pystr;
  makedirs : outcome unit;              (* os.makedirs(app_dir, exist_ok=True) *)
  write : pystr -> outcome unit;        (* open(path, 'w') and f.write *)
  created : pystr;                      (* datetime.now().isoformat() in save_app *)
  saved : pystr;                        (* the same in save_library *)
  dump : outcome unit;                  (* open(library_file, 'w') and json.dump *)
  app_dir_exists : bool                 (* os.path.exists(app_dir) in the except clause *)
}.

(** The manager: its library and the calls it has made. *)
Record manager := {
  catalogue : library;
  calls : list disk_call
}.

Definition note (c : disk_call) : M manager unit :=
  fun m => (Ret tt, {| catalogue := catalogue m; calls := calls m ++ [c] |}).

Definition apps_dir : pystr := py "generated_apps".
Definition HYPHEN : N := 45.
Definition UNDERSCORE : N := 95.

(** ["".join(c for c in name if c.isalnum() or c in ('-', '_')).lower()] *)
Definition safe_name (h : host) (name : pystr) : pystr :=
  lower h (List.filter
             (fun c => isalnum h c || N.eqb c HYPHEN || N.eqb c UNDERSCORE)
             name).

(** [save_library]: [last_updated] is set before the file is opened. *)
Definition save_library (h : host) : M manager unit :=
  fun m =>
    let lib := {| apps := apps (catalogue m); last_updated := saved h |} in
    let m' := {| catalogue := lib; calls := calls m ++ [DumpLibrary lib] |} in
    match dump h with
    | Ret _ => (Ret tt, m')
    | Raise e =>
        (Raise (OtherException (py "Failed to save library: " ++ str_of_exn e)),
         m')
    end.

(** The loop [for filename, content in files.items()] over the local
    [saved_files]. *)
Fixpoint write_files (h : host) (app_dir : pystr)
    (files : list (pystr * pystr)) (saved_files : list pystr)
    : M manager (list pystr) :=
  match files with
  | [] => ret saved_files
  | (filename, content) :: rest =>
      let file_path := os_path_join h app_dir filename in
      let* _ := note (WriteFile file_path content) in
      match write h file_path with
      | Ret _ => write_files h app_dir rest (saved_files ++ [filename])
      | Raise e =>
          raise (OtherException
                   (py "Failed to save file " ++ filename ++ py ": "
                      ++ str_of_exn e))
      end
  end.

Definition named (name : pystr) (app : app_info) : bool :=
  str_eqb (app_name app) name.

(** [existing_app.update(app_info)] on the first entry of that name. *)
Fixpoint update_first (name : pystr) (info : app_info) (entries : list app_info)
    : option (list app_info) :=
  match entries with
  | [] => None
  | app :: rest =>
      if named name app then Some (info :: rest)
      else match update_first name info rest with
           | Some rest' => Some (app :: rest')
           | None => None
           end
  end.

Definition record_app (info : app_info) (entries : list app_info)
    : list app_info :=
  match update_first (app_name info) info entries with
  | Some entries' => entries'
  | None => entries ++ [info]
  end.

Definition set_apps (entries : list app_info) : M manager unit :=
  fun m => (Ret tt,
            {| catalogue := {| apps := entries;
                               last_updated := last_updated (catalogue m) |};
               calls := calls m |}).

(** [save_app] *)
Definition save_app (h : host) (name description : pystr)
    (files : list (pystr * pystr)) : M manager pystr :=
  let app_dir := os_path_join h apps_dir (safe_name h name) in
  try_except
    (let* _ := note (Makedirs app_dir) in
     let* _ := of_outcome (makedirs h) in
     let* saved_files := write_files h app_dir files [] in
     let app_info :=
       {| app_name := name; app_description := description;
          app_created_at := created h; app_path := app_dir;
          app_files := saved_files |} in
     let* _ := (fun m => set_apps (record_app app_info (apps (catalogue m))) m) in
     let* _ := save_library h in
     ret app_dir)
    (fun e =>
       let* _ := (if app_dir_exists h then note (RemoveTree app_dir)
                  else ret tt) in
       raise (OtherException (py "Failed to save app: " ++ str_of_exn e))).

(** [get_app_library] *)
Definition get_app_library (m : manager) : list app_info := apps (catalogue m).

(** The entry a later [save_app] of that name would update. *)
Definition find_app (name : pystr) (m : manager) : option app_info :=
  List.find (named name) (get_app_library m).

(** The directory of an app, the entry a successful [save_app] makes for
    it, and the call that writes one of its files. *)
Definition app_directory (h : host) (name : pystr) : pystr :=
  os_path_join h apps_dir (safe_name h name).

Definition saved_info (h : host) (name description : pystr)
    (files : list (pystr * pystr)) : app_info :=
  {| app_name := name; app_description := description;
     app_created_at := created h; app_path := app_directory h name;
     app_files := List.map fst files |}.

Definition written (h : host) (app_dir : pystr) (f : pystr * pystr)
    : disk_call :=
  WriteFile (os_path_join h app_dir (fst f)) (snd f).

End Manager.

(* ===================================================================== *)
(** ** Concrete outputs, errors and hosts *)
(* ===================================================================== *)

Module MoreExamples.
Import Tools Examples Checks AppChecks Manager.

(** What pip prints at the end of an installation. *)
Definition pip_output : pystr :=
  join [LF] [py "Collecting requests";
             py "Successfully installed requests-2.31.0 urllib3-2.0.7";
             []].

Definition missing_requests : pystr :=
  py "ModuleNotFoundError: No module named 'requests'".

Definition bad_syntax : pystr := py "SyntaxError: invalid syntax".

Definition missing_unquoted : pystr := py "ModuleNotFoundError".

(** [str.isalnum] and [str.lower] on ASCII text, and [posixpath.join] of
    two components. *)
Definition ascii_alnum (c : N) : bool :=
  (48 <=? c) && (c <=? 57) || (65 <=? c) && (c <=? 90)
  || (97 <=? c) && (c <=? 122).

Definition ascii_lower (s : pystr) : pystr :=
  List.map (fun c => if (65 <=? c) && (c <=? 90) then c + 32 else c) s.

Definition posix_join (a b : pystr) : pystr :=
  if startswith b (py "/") then b
  else match last a with
       | None => b
       | Some c => if N.eqb c 47 then a ++ b else a ++ py "/" ++ b
       end.

(** A host on which everything succeeds, except what is given. *)
Definition posix_host (write_answer : pystr -> outcome unit)
    (dump_answer : outcome unit) : host :=
  {| isalnum := ascii_alnum; lower := ascii_lower;
     os_path_join := posix_join;
     makedirs := Ret tt; write := write_answer;
     created := py "2025-01-01T10:00:00"; saved := py "2025-01-01T10:00:01";
     dump := dump_answer; app_dir_exists := true |}.

Definition disk_full : exn := OtherException (py "No space left on device").

Definition healthy : host := posix_host (fun _ => Ret tt) (Ret tt).

Definition cannot_dump : host := posix_host (fun _ => Ret tt) (Raise disk_full).

Definition cannot_write_ui : host :=
  posix_host (fun path => if str_eqb path (py "generated_apps/myapp/ui.py")
                          then Raise disk_full else Ret tt)
             (Ret tt).

Definition two_files : list (pystr * pystr) :=
  [(py "agent.py", py "print(1)"); (py "ui.py", py "import streamlit")].

Definition new_manager : manager :=
  {| catalogue := {| apps := []; last_updated := py "2025-01-01T09:00:00" |};
     calls := [] |}.

End MoreExamples.

(* ===================================================================== *)
(** ** Facts about extract_python_code_block *)
(* ===================================================================== *)

Module ExtractFacts.
Import Extract Examples.

(** The loop with its accumulator and the recursive reading agree. *)
Lemma step_collected (lines : list pystr) :
  forall in_code_block code_lines,
    snd (fold_left step lines (in_code_block, code_lines))
    = code_lines ++ collected in_code_block lines.
Proof.
  induction lines as [|line rest IH]; intros b acc; simpl.
  - by rewrite app_nil_r.
  - destruct (opens line); [apply IH|].
    destruct (closes line), b; simpl; rewrite IH; try done.
    by rewrite <- app_assoc.
Qed.

Lemma scan_collected lines : snd (scan lines) = collected false lines.
Proof. unfold scan. by rewrite step_collected. Qed.

(** Outside a fence, lines that open nothing are dropped. *)
Lemma collected_prose prose rest :
  Forall (fun l => opens l = false) prose ->
  collected false (prose ++ rest) = collected false rest.
Proof.
  induction 1 as [|l ls Hl _ IH]; simpl; [done|].
  rewrite Hl, andb_false_r. exact IH.
Qed.

(** Inside a fence, every line up to the closing one is kept. *)
Lemma collected_body lines closer rest :
  Forall (fun l => opens l = false /\ closes l = false) lines ->
  opens closer = false -> closes closer = true ->
  collected true (lines ++ closer :: rest) = lines ++ collected false rest.
Proof.
  intros Hbody Ho Hc.
  induction Hbody as [|l ls [Hlo Hlc] _ IH]; simpl.
  - by rewrite Ho, Hc.
  - rewrite Hlo, Hlc. simpl. by rewrite IH.
Qed.

Lemma collected_section s rest :
  well_fenced s ->
  collected false (section_lines s ++ rest) = body s ++ collected false rest.
Proof.
  intros (Hprose & Hopen & Hbody & Hco & Hcc).
  unfold section_lines. rewrite <- app_assoc.
  rewrite collected_prose by done. simpl. rewrite Hopen.
  rewrite <- app_assoc. simpl.
  by apply collected_body.
Qed.

Lemma collected_sections sections tail :
  Forall well_fenced sections ->
  Forall (fun l => opens l = false) tail ->
  collected false (concat (List.map section_lines sections) ++ tail)
  = concat (List.map body sections).
Proof.
  intros Hs Htail.
  induction Hs as [|s ss Hwf _ IH]; simpl.
  - rewrite <- (app_nil_r tail), collected_prose by done. done.
  - rewrite <- app_assoc, collected_section by done. by rewrite IH.
Qed.

(** C8, as the code has it: for a document made of any number of sections
    fenced by a line starting with [```python] and a line [```], followed
    by lines that open no fence, [extract_python_code_block] returns the
    lines of all the sections, in order and joined by line feeds; only the
    lines outside the fences are discarded. *)
Theorem extract_keeps_every_python_fence markdown sections tail :
  splitlines markdown = concat (List.map section_lines sections) ++ tail ->
  Forall well_fenced sections ->
  Forall (fun l => opens l = false) tail ->
  extract_python_code_block markdown
  = join [LF] (concat (List.map body sections)).
Proof.
  intros Hlines Hs Htail. unfold extract_python_code_block.
  by rewrite scan_collected, Hlines, collected_sections.
Qed.

Lemma fix_section_well_fenced : well_fenced fix_section.
Proof. repeat split; repeat constructor. Defined.

Lemma test_section_well_fenced : well_fenced test_section.
Proof. repeat split; repeat constructor. Defined.

(** The theorem at the reply with two fenced sections. *)
Lemma extract_keeps_every_python_fence_witness :
  splitlines two_fences
    = concat (List.map section_lines [fix_section; test_section]) ++ []
  /\ Forall well_fenced [fix_section; test_section]
  /\ Forall (fun l => opens l = false) []
  /\ extract_python_code_block two_fences
     = join [LF] (concat (List.map body [fix_section; test_section])).
Proof.
  assert (Forall well_fenced [fix_section; test_section]) as Hs.
  { constructor; [apply fix_section_well_fenced|].
    constructor; [apply test_section_well_fenced|]. constructor. }
  split; [reflexivity|]. split; [exact Hs|]. split; [constructor|].
  apply (extract_keeps_every_python_fence two_fences
           [fix_section; test_section] []); [reflexivity | exact Hs | constructor].
Defined.

(** C8, as stated, fails: with two fenced sections in the reply the
    result also holds the contents of the second one, so it is not the
    contents of the first fenced section alone. *)
Lemma later_fences_are_kept :
  extract_python_code_block two_fences = py "a = 1" ++ [LF] ++ py "b = 2"
  /\ spec_first_fenced_section two_fences = py "a = 1"
  /\ extract_python_code_block two_fences
     <> spec_first_fenced_section two_fences.
Proof.
  split; [reflexivity|]. split; [reflexivity|].
  vm_compute. discriminate.
Qed.

End ExtractFacts.

(* ===================================================================== *)
(** ** Facts about analyze_dependencies *)
(* ===================================================================== *)

Module DepsFacts.
Import Deps Tools Examples.









(** C9, as the code has it: the list [analyze_dependencies] returns is the
    list the first bracketed substring of the response evaluates to, with
    its elements in the same order and every repetition kept. *)
Theorem analyze_dependencies_returns_literal env code w text group items :
  analysis env = Text text ->
  re_search text = Some group ->
  py_eval env group = Ret (PyList items) ->
  fst (analyze_dependencies env code w) = Ret items.
Proof.
  intros Ht Hg He. unfold analyze_dependencies, bind, record. rewrite Ht. cbn.
  unfold parse_dependencies. by rewrite Hg, He.
Qed.

(** The theorem at a reply that names [numpy] twice. *)
Lemma analyze_dependencies_returns_literal_witness :
  analysis repeats_numpy = Text (py "You need ['numpy', 'numpy'] for this.")
  /\ re_search (py "You need ['numpy', 'numpy'] for this.")
     = Some (py "['numpy', 'numpy']")
  /\ py_eval repeats_numpy (py "['numpy', 'numpy']")
     = Ret (PyList [PyStr numpy; PyStr numpy])
  /\ fst (analyze_dependencies repeats_numpy program empty_world)
     = Ret [PyStr numpy; PyStr numpy].
Proof.
  split; [reflexivity|]. split; [reflexivity|]. split; [reflexivity|].
  apply (analyze_dependencies_returns_literal repeats_numpy program empty_world
           (py "You need ['numpy', 'numpy'] for this.")
           (py "['numpy', 'numpy']")); reflexivity.
Defined.

(** C9, as stated, fails: a reply that names a package twice gives a
    dependency list in which that package occurs twice. *)
Lemma duplicates_are_returned :
  fst (analyze_dependencies repeats_numpy program empty_world)
    = Ret [PyStr numpy; PyStr numpy]
  /\ ~ NoDup [PyStr numpy; PyStr numpy].
Proof.
  split; [reflexivity|].
  intros H. apply NoDup_cons in H as [H _]. apply H. by left.
Qed.

(** *** The streamlit guard *)

Lemma strings_of_snoc deps names s :
  strings_of deps = Some names ->
  strings_of (deps ++ [PyStr s]) = Some (names ++ [s]).
Proof.
  revert names. induction deps as [|v deps IH]; intros names; simpl.
  - by intros [= <-].
  - destruct v; try discriminate.
    destruct (strings_of deps) as [ss|]; [|discriminate].
    intros [= <-]. by rewrite (IH ss).
Qed.

Lemma str_in_strings x deps names :
  strings_of deps = Some names ->
  str_in x deps = true <-> In x names.
Proof.
  revert names. induction deps as [|v deps IH]; intros names; simpl.
  - intros [= <-]. simpl. split; [discriminate|tauto].
  - destruct v; try discriminate.
    destruct (strings_of deps) as [ss|]; [|discriminate].
    intros [= <-]. simpl. rewrite orb_true_iff, (IH ss) by done.
    unfold str_eqb. rewrite bool_decide_eq_true. tauto.
Qed.

(** What [add_streamlit] does to a list of package names. *)
Lemma add_streamlit_strings deps names :
  strings_of deps = Some names ->
  exists installed,
    strings_of (add_streamlit deps) = Some installed
    /\ In streamlit installed
    /\ (~ In streamlit names -> installed = names ++ [streamlit])
    /\ (In streamlit names -> installed = names).
Proof.
  intros H. unfold add_streamlit.
  destruct (str_in streamlit deps) eqn:E; simpl.
  - apply (str_in_strings _ _ _ H) in E.
    exists names. repeat split; try done.
  - assert (~ In streamlit names) as Hn.
    { intros Hin. apply (str_in_strings _ _ _ H) in Hin. congruence. }
    exists (names ++ [streamlit]). split; [by apply strings_of_snoc|].
    split; [apply in_or_app; right; by left|]. split; [done|]. intros; done.
Qed.

End DepsFacts.

(* ===================================================================== *)
(** ** Facts about CodeExecutionTools *)
(* ===================================================================== *)

Module ToolsFacts.
Import Deps Tools Examples DepsFacts.

#[local] Arguments py : simpl never.
#[local] Arguments temp_name : simpl never.
#[local] Arguments venv_script : simpl never.
#[local] Arguments execution_result : simpl never.
#[local] Arguments failure : simpl never.
#[local] Arguments Extract.extract_python_code_block : simpl never.

(** *** Single calls *)

Lemma temp_name_not_venv n suffix : temp_name n suffix <> temp_venv.
Proof. unfold temp_name, temp_venv. cbn. discriminate. Qed.

Ltac venv_apart :=
  first [apply temp_name_not_venv | apply not_eq_sym, temp_name_not_venv].

(** A name is gone once it has been deleted, whatever is deleted after. *)
Ltac gone :=
  repeat (apply lookup_delete_None; first [by left | right]).

(** One [await] of a method of the class, and one assignment to a local
    that the [finally] clause reads. *)
Ltac call := unfold bind at 1; unfold lift at 1; cbn [outside].
Ltac assign :=
  unfold bind at 1;
  first [unfold append_temp_file at 1 | unfold set_venv_dir at 1].
Ltac count_events :=
  unfold repair_requests, program_runs; cbn [log];
  rewrite !List.filter_app, !length_app; cbn.

Lemma execute_code_local env code w :
  execute_code (py "Local") env code w = _local_execute_with_deps env code w.
Proof. reflexivity. Qed.

Lemma analyze_returns env code w deps :
  inferred env = Some deps ->
  analyze_dependencies env code w
  = (Ret deps, {| files := files w; next_tmp := next_tmp w;
                  log := log w ++ [Generate (AnalyzePrompt code)] |}).
Proof.
  unfold inferred, analyze_dependencies, bind, record.
  destruct (analysis env); intros [= <-]; reflexivity.
Qed.

Lemma create_requirements_returns deps names w :
  strings_of deps = Some names ->
  create_requirements_file deps w
  = (Ret (temp_name (next_tmp w) (py ".txt")),
     {| files := <[temp_name (next_tmp w) (py ".txt") := File (join [LF] names)]>
                   (<[temp_name (next_tmp w) (py ".txt") := File []]> (files w));
        next_tmp := S (next_tmp w); log := log w |}).
Proof.
  intros H. unfold create_requirements_file, bind, named_temporary_file,
    of_outcome, join_values, write_file, ret. rewrite H. reflexivity.
Qed.

Lemma setup_venv_install_fails env req w c :
  venv_creation env = Ret tt -> installer env = Ret c -> returncode c <> 0%Z ->
  setup_venv env req w
  = (Ret (setup_failed (stderr c)),
     {| files := <[temp_venv := Directory]> (files w);
        next_tmp := next_tmp w;
        log := (log w ++ [CreateVenv temp_venv])
                ++ [PipInstall (venv_script (os_nt env) temp_venv (py "pip")) req
                      (<[temp_venv := Directory]> (files w) !! req)] |}).
Proof.
  intros Hv Hi Hrc.
  unfold setup_venv, try_except, bind, record, of_outcome, make_directory, ret.
  rewrite Hv, Hi. cbn [files next_tmp log].
  destruct (Z.eqb_spec (returncode c) 0); [done|]. reflexivity.
Qed.

Lemma setup_venv_ready env req w c :
  venv_creation env = Ret tt -> installer env = Ret c -> returncode c = 0%Z ->
  setup_venv env req w
  = (Ret {| setup_success := true; setup_error := None;
            setup_venv_dir := Some temp_venv;
            setup_python_path :=
              Some (venv_script (os_nt env) temp_venv (py "python")) |},
     {| files := <[temp_venv := Directory]> (files w);
        next_tmp := next_tmp w;
        log := (log w ++ [CreateVenv temp_venv])
                ++ [PipInstall (venv_script (os_nt env) temp_venv (py "pip")) req
                      (<[temp_venv := Directory]> (files w) !! req)] |}).
Proof.
  intros Hv Hi Hrc.
  unfold setup_venv, try_except, bind, record, of_outcome, make_directory, ret.
  rewrite Hv, Hi, Hrc. reflexivity.
Qed.

(** [setup_venv] raises nothing, and reports a directory only when it
    reports success. *)
Lemma setup_venv_returns env req w :
  exists s w', setup_venv env req w = (Ret s, w')
    /\ (setup_success s = true ->
        setup_venv_dir s = Some temp_venv
        /\ setup_python_path s
           = Some (venv_script (os_nt env) temp_venv (py "python"))
        /\ files w' !! temp_venv = Some Directory)
    /\ (setup_success s = false -> setup_venv_dir s = None).
Proof.
  unfold setup_venv, try_except, bind, record, of_outcome, make_directory, ret.
  destruct (venv_creation env) as [[]|e]; cbn [files next_tmp log].
  - destruct (installer env) as [c|e]; cbn.
    + destruct (Z.eqb (returncode c) 0); cbn; do 2 eexists;
        (split; [reflexivity|]); cbn; split; try done.
      intros _. split; [done|]. split; [done|]. apply lookup_insert_eq.
    + do 2 eexists. split; [reflexivity|]. cbn. done.
  - do 2 eexists. split; [reflexivity|]. cbn. done.
Qed.

(** *** The sandbox identifier *)

(** C3, as the code has it: whenever [setup_venv] hands a sandbox to its
    caller, the identifier is the fixed name [temp_venv], and the directory
    of that name is the one the call has written to. *)
Theorem setup_venv_fixed_name env req w dir :
  sandbox_of (setup_venv env req w) = Some dir ->
  dir = temp_venv
  /\ files (snd (setup_venv env req w)) !! temp_venv = Some Directory.
Proof.
  unfold sandbox_of.
  destruct (setup_venv_returns env req w) as (s & w' & -> & Hok & Hfail).
  cbn. intros Hdir.
  destruct (setup_success s) eqn:E.
  - destruct Hok as (Hd & _ & Hf); [done|]. split; [congruence|done].
  - rewrite Hfail in Hdir by done. discriminate.
Qed.

(** The theorem at the first of the two requests. *)
Lemma setup_venv_fixed_name_witness :
  sandbox_of first_request = Some (py "temp_venv")
  /\ py "temp_venv" = temp_venv
  /\ files (snd first_request) !! temp_venv = Some Directory.
Proof.
  split; [reflexivity|].
  apply (setup_venv_fixed_name always_fails (py "/tmp/tmp0.txt") empty_world
           (py "temp_venv")).
  reflexivity.
Defined.

(** C3, as stated, fails: two requests, with different manifests and
    different collaborators, are handed the same sandbox identifier, and
    the second finds the directory the first has made. *)
Lemma sandbox_identifiers_collide :
  sandbox_of first_request = Some temp_venv
  /\ sandbox_of second_request = Some temp_venv
  /\ sandbox_of first_request = sandbox_of second_request
  /\ files (snd first_request) !! temp_venv = Some Directory.
Proof. repeat split; reflexivity. Qed.

(** *** Runs in a provisioned environment *)

Section Provisioned.
Variables (env : environment) (code : pystr) (w : world).
Variables (deps : list py_value) (names : list pystr) (pip : completed).
Hypothesis Hdeps : inferred env = Some deps.
Hypothesis Hnames : strings_of deps = Some names.
Hypothesis Hvenv : venv_creation env = Ret tt.
Hypothesis Hpip : installer env = Ret pip.
Hypothesis Hpip0 : returncode pip = 0%Z.

(** The whole run when the program fails and is repaired: the result is
    the one of the second run, the calls are these eleven, and the three
    temporary files and the directory are gone at the end. *)
Lemma local_repairs_once (c1 c2 : completed) (r x : pystr) :
  first_run env = Ret c1 -> returncode c1 <> 0%Z ->
  repair env = Text r -> extraction env = Text x ->
  second_run env = Ret c2 ->
  exists fs n manifest,
    _local_execute_with_deps env code w
    = (execution_result c2 (Some (Extract.extract_python_code_block x)),
       {| files := fs; next_tmp := n;
          log := log w ++
            [Generate (AnalyzePrompt code);
             CreateVenv temp_venv;
             PipInstall (venv_script (os_nt env) temp_venv (py "pip"))
               (temp_name (next_tmp w) (py ".txt")) manifest;
             RunProgram (venv_script (os_nt env) temp_venv (py "python"))
               (temp_name (S (next_tmp w)) (py ".py"));
             Generate (RepairPrompt (stderr c1) code deps);
             Generate (ExtractPrompt r);
             RunProgram (venv_script (os_nt env) temp_venv (py "python"))
               (temp_name (S (S (next_tmp w))) (py ".py"));
             Unlink (temp_name (next_tmp w) (py ".txt"));
             Unlink (temp_name (S (next_tmp w)) (py ".py"));
             Unlink (temp_name (S (S (next_tmp w))) (py ".py"));
             Rmtree temp_venv] |})
    /\ fs !! temp_venv = None
    /\ fs !! temp_name (next_tmp w) (py ".txt") = None
    /\ fs !! temp_name (S (next_tmp w)) (py ".py") = None
    /\ fs !! temp_name (S (S (next_tmp w))) (py ".py") = None.
Proof.
  intros H1 Hc1 Hr Hx H2.
  unfold _local_execute_with_deps, try_finally, try_except, local_execute_body.
  call. rewrite (analyze_returns _ _ _ _ Hdeps).
  call. rewrite (create_requirements_returns _ _ _ Hnames).
  assign.
  call. rewrite (setup_venv_ready _ _ _ _ Hvenv Hpip Hpip0).
  cbn [setup_success negb setup_venv_dir setup_python_path].
  unfold subprocess_run, generate, return_code, of_outcome.
  rewrite H1, Hr, Hx, H2.
  apply Z.eqb_neq in Hc1.
  cbn. rewrite Hc1. cbn.
  rewrite bool_decide_eq_true_2.
  2:{ rewrite !lookup_delete_ne by venv_apart.
      rewrite !lookup_insert_ne by venv_apart.
      rewrite lookup_insert_eq. eauto. }
  cbn. do 3 eexists. split; [rewrite <- !app_assoc; reflexivity|].
  repeat split; gone.
Qed.

(** C2: when the run of the program exits non-zero and the run of the
    repaired program exits non-zero too, [execute_code] has made exactly
    one repair request and two runs of a program (the first one and one
    re-run), and its result has [success = False]. *)
Theorem exactly_one_repair_cycle (c1 c2 : completed) (r x : pystr) :
  first_run env = Ret c1 -> returncode c1 <> 0%Z ->
  repair env = Text r -> extraction env = Text x ->
  second_run env = Ret c2 -> returncode c2 <> 0%Z ->
  fst (execute_code (py "Local") env code w) !! "success"%string
    = Some (PyBool false)
  /\ repair_requests (snd (execute_code (py "Local") env code w))
     = (repair_requests w + 1)%nat
  /\ program_runs (snd (execute_code (py "Local") env code w))
     = (program_runs w + 2)%nat.
Proof.
  intros H1 Hc1 Hr Hx H2 Hc2. rewrite execute_code_local.
  destruct (local_repairs_once c1 c2 r x) as (fs & n & manifest & -> & _);
    try done.
  apply Z.eqb_neq in Hc2.
  cbn [fst snd]. count_events.
  split; [|lia].
  unfold execution_result. rewrite Hc2. reflexivity.
Qed.



End Provisioned.

(** The theorem at a program that fails before and after its repair. *)
Lemma exactly_one_repair_cycle_witness :
  first_run always_fails = Ret crashed
  /\ second_run always_fails = Ret crashed
  /\ returncode crashed <> 0%Z
  /\ fst (execute_code (py "Local") always_fails program empty_world)
       !! "success"%string = Some (PyBool false)
  /\ repair_requests
       (snd (execute_code (py "Local") always_fails program empty_world))
     = (repair_requests empty_world + 1)%nat
  /\ program_runs
       (snd (execute_code (py "Local") always_fails program empty_world))
     = (program_runs empty_world + 2)%nat.
Proof.
  split; [reflexivity|]. split; [reflexivity|]. split; [discriminate|].
  apply (exactly_one_repair_cycle always_fails program empty_world
           [] [] succeeded eq_refl eq_refl eq_refl eq_refl eq_refl
           crashed crashed
           (py "The division by zero is removed.") two_fences);
    first [reflexivity | discriminate].
Defined.



(** *** No second repair round, whatever the collaborators do *)

(** The [finally] clause makes no request and runs no program. *)
Lemma unlink_all_counts names w :
  repair_requests (snd (unlink_all names w)) = repair_requests w
  /\ program_runs (snd (unlink_all names w)) = program_runs w.
Proof.
  revert w. induction names as [|file rest IH]; intros w; [done|].
  cbn. destruct (IH {| files := delete file (files w); next_tmp := next_tmp w;
                       log := log w ++ [Unlink file] |}) as [-> ->].
  unfold repair_requests, program_runs. cbn [log].
  rewrite !List.filter_app, !length_app. cbn. lia.
Qed.

Lemma unlink_all_returns names w : fst (unlink_all names w) = Ret tt.
Proof.
  revert w. induction names as [|file rest IH]; intros w; [done|]. cbn. apply IH.
Qed.

Lemma cleanup_outside a :
  outside (snd (cleanup a))
  = let w1 := snd (unlink_all (temp_files a) (outside a)) in
    match venv_dir a with
    | Some dir =>
        if bool_decide (is_Some (files w1 !! dir)) then snd (rmtree dir w1) else w1
    | None => w1
    end.
Proof.
  unfold cleanup. unfold bind at 1. unfold lift at 1.
  pose proof (unlink_all_returns (temp_files a) (outside a)) as Hret.
  destruct (unlink_all (temp_files a) (outside a)) as [r w1].
  cbn in Hret. subst r. cbn.
  destruct (venv_dir a) as [dir|]; cbn; [|done].
  by destruct (bool_decide _).
Qed.

Lemma cleanup_counts a :
  repair_requests (outside (snd (cleanup a))) = repair_requests (outside a)
  /\ program_runs (outside (snd (cleanup a))) = program_runs (outside a).
Proof.
  rewrite cleanup_outside. cbn zeta.
  destruct (unlink_all_counts (temp_files a) (outside a)) as [Hr Hp].
  destruct (venv_dir a) as [dir|]; [|done].
  destruct (bool_decide _); [|done].
  rewrite <- Hr, <- Hp. unfold repair_requests, program_runs. cbn.
  rewrite !List.filter_app, !length_app. cbn. lia.
Qed.

Ltac tally := rewrite ?List.filter_app, ?length_app; cbn; lia.

(** The [try] clause, by cases on what each call answers. *)
Lemma body_counts env code a :
  (repair_requests (outside (snd (local_execute_body env code a)))
     <= repair_requests (outside a) + 1)%nat
  /\ (program_runs (outside (snd (local_execute_body env code a)))
     <= program_runs (outside a) + 2)%nat.
Proof.
  unfold repair_requests, program_runs.
  unfold local_execute_body,
    analyze_dependencies, create_requirements_file, setup_venv, try_except,
    subprocess_run, generate, return_code, join_values, of_outcome.
  destruct (analysis env) as [e|e|t]; cbn; try tally.
  all: try (match goal with
            | |- context [strings_of ?d] => destruct (strings_of d)
            end; cbn); try tally.
  all: try (destruct (venv_creation env) as [[]|e']; cbn); try tally.
  all: try (destruct (installer env) as [c|e']; cbn); try tally.
  all: try (destruct (Z.eqb (returncode c) 0); cbn); try tally.
  all: try (destruct (first_run env) as [c1|e1]; cbn); try tally.
  all: try (destruct (Z.eqb (returncode c1) 0); cbn); try tally.
  all: try (destruct (repair env); cbn); try tally.
  all: try (destruct (extraction env); cbn); try tally.
  all: try (destruct (second_run env); cbn); tally.
Qed.

(** For every behaviour of the collaborators and of the sub-processes a
    request makes at most one repair request and runs a program at most
    twice. *)
Lemma at_most_one_repair env code w :
  (repair_requests (snd (_local_execute_with_deps env code w)) <= repair_requests w + 1)%nat
  /\ (program_runs (snd (_local_execute_with_deps env code w)) <= program_runs w + 2)%nat.
Proof.
  unfold _local_execute_with_deps, try_finally, try_except.
  pose proof (body_counts env code {| temp_files := []; venv_dir := None; outside := w |}) as H.
  destruct (local_execute_body env code _) as [r a]. cbn [snd outside] in H.
  pose proof (cleanup_counts a) as [Hr Hp].
  destruct r as [result|e]; cbn; rewrite Hr, Hp; exact H.
Qed.

(** *** When the installer fails *)

Section InstallFails.
Variables (env : environment) (code : pystr) (w : world).
Variables (deps : list py_value) (names : list pystr) (pip : completed).
Hypothesis Hdeps : inferred env = Some deps.
Hypothesis Hnames : strings_of deps = Some names.
Hypothesis Hvenv : venv_creation env = Ret tt.
Hypothesis Hpip : installer env = Ret pip.
Hypothesis Hpip1 : returncode pip <> 0%Z.

(** [setup_venv] answers with [venv_dir = None], so the local [venv_dir] of
    [_local_execute_with_deps] is still [None] when its [finally] clause
    runs: the manifest is unlinked, the directory is not touched. *)
Lemma local_install_fails :
  exists fs n manifest,
    _local_execute_with_deps env code w
    = (failure (py "Failed to set up virtual environment: " ++ stderr pip),
       {| files := fs; next_tmp := n;
          log := log w ++
            [Generate (AnalyzePrompt code);
             CreateVenv temp_venv;
             PipInstall (venv_script (os_nt env) temp_venv (py "pip"))
               (temp_name (next_tmp w) (py ".txt")) manifest;
             Unlink (temp_name (next_tmp w) (py ".txt"))] |})
    /\ fs !! temp_venv = Some Directory
    /\ fs !! temp_name (next_tmp w) (py ".txt") = None.
Proof.
  unfold _local_execute_with_deps, try_finally, try_except, local_execute_body.
  call. rewrite (analyze_returns _ _ _ _ Hdeps).
  call. rewrite (create_requirements_returns _ _ _ Hnames).
  assign.
  call. rewrite (setup_venv_install_fails _ _ _ _ Hvenv Hpip Hpip1).
  cbn. do 3 eexists. split; [rewrite <- !app_assoc; reflexivity|].
  split; [|apply lookup_delete_eq].
  rewrite lookup_delete_ne by venv_apart. apply lookup_insert_eq.
Qed.

(** C1 on the code: when the package installer exits non-zero,
    [execute_code] returns the failure result while the virtual-environment
    directory [temp_venv] it has created is still in the file system. *)
Theorem install_failure_leaves_venv :
  fst (execute_code (py "Local") env code w)
    = failure (py "Failed to set up virtual environment: " ++ stderr pip)
  /\ files (snd (execute_code (py "Local") env code w)) !! temp_venv
     = Some Directory.
Proof.
  rewrite execute_code_local.
  destruct local_install_fails as (fs & n & manifest & -> & Hdir & _). done.
Qed.

End InstallFails.

(** The theorem at a request whose manifest names a package that does not
    exist. *)
Lemma install_failure_leaves_venv_witness :
  installer install_fails = Ret no_such_package
  /\ returncode no_such_package <> 0%Z
  /\ files empty_world !! temp_venv = None
  /\ fst (execute_code (py "Local") install_fails program empty_world)
     = failure (py "Failed to set up virtual environment: "
                  ++ stderr no_such_package)
  /\ files (snd (execute_code (py "Local") install_fails program empty_world))
       !! temp_venv = Some Directory.
Proof.
  split; [reflexivity|]. split; [discriminate|]. split; [reflexivity|].
  apply (install_failure_leaves_venv install_fails program empty_world
           [PyStr (py "nosuchpackage")] [py "nosuchpackage"] no_such_package
           eq_refl eq_refl eq_refl eq_refl).
  discriminate.
Defined.

(** *** The long-running start *)

Section Streamlit.
Variables (env : environment) (app_code : pystr) (w : world).
Variables (deps : list py_value) (names : list pystr).
Hypothesis Hdeps : inferred env = Some deps.
Hypothesis Hnames : strings_of deps = Some names.
Hypothesis Hvenv : venv_creation env = Ret tt.


Variable (pip : completed).
Hypothesis Hpip : installer env = Ret pip.
Hypothesis Hpip0 : returncode pip = 0%Z.

(** The result of [run_streamlit_app] once the environment is ready, by
    what the launched process does within the five seconds. *)
Lemma streamlit_launch :
  exists w1,
    run_streamlit_app env app_code w
    = match service_start env with
      | Ret (Exited process) =>
          if negb (Z.eqb (returncode process) 0)
          then (Some (failure (stderr process)), w1)
          else (None, w1)
      | Ret (StillRunning pid) =>
          (Some (started pid (temp_name (S (next_tmp w)) (py ".py"))
                   (Some temp_venv)), w1)
      | Raise e => (Some (failure (str_of_exn e)), w1)
      end.
Proof.
  destruct (add_streamlit_strings _ _ Hnames) as (installed & Hs & _).
  unfold run_streamlit_app, try_except, streamlit_body.
  unfold bind at 1. rewrite (analyze_returns _ _ _ _ Hdeps).
  unfold bind at 1. rewrite (create_requirements_returns _ _ _ Hs).
  unfold bind at 1. rewrite (setup_venv_ready _ _ _ _ Hvenv Hpip Hpip0).
  cbn [setup_success negb setup_venv_dir].
  unfold of_outcome. cbn.
  destruct (service_start env) as [[p|pid]|e]; cbn;
    [destruct (Z.eqb (returncode p) 0); cbn| |]; eexists; reflexivity.
Qed.

(** C5: a process that exits with a non-zero status within the five
    seconds gives [success = False] with its captured stderr as the error;
    a process still running when the five seconds are over gives
    [success = True] with the process object. *)
Theorem grace_window_verdict :
  (forall process, service_start env = Ret (Exited process) ->
     returncode process <> 0%Z ->
     exists result, fst (run_streamlit_app env app_code w) = Some result
       /\ result !! "success"%string = Some (PyBool false)
       /\ result !! "error"%string = Some (PyStr (stderr process)))
  /\ (forall pid, service_start env = Ret (StillRunning pid) ->
     exists result, fst (run_streamlit_app env app_code w) = Some result
       /\ result !! "success"%string = Some (PyBool true)
       /\ result !! "process"%string = Some (PyProcess pid)).
Proof.
  destruct streamlit_launch as (w1 & ->). split.
  - intros p -> Hrc. apply Z.eqb_neq in Hrc. rewrite Hrc.
    eexists. split; [reflexivity|]. split; reflexivity.
  - intros pid ->. eexists. split; [reflexivity|]. split; reflexivity.
Qed.

(** C6 on the code: when the launched process exits with status 0 within
    the five seconds, no [return] is reached and [run_streamlit_app]
    returns [None], which has no [success] field. *)
Theorem clean_exit_returns_none process :
  service_start env = Ret (Exited process) -> returncode process = 0%Z ->
  fst (run_streamlit_app env app_code w) = None.
Proof.
  destruct streamlit_launch as (w1 & ->). intros -> ->. reflexivity.
Qed.

End Streamlit.


(** The theorem at a service that crashes at once and at one that stays. *)
Lemma grace_window_verdict_witness :
  service_start service_crashes = Ret (Exited crashed)
  /\ returncode crashed <> 0%Z
  /\ service_start service_stays = Ret (StillRunning 7)
  /\ (exists result,
        fst (run_streamlit_app service_crashes program empty_world) = Some result
        /\ result !! "success"%string = Some (PyBool false)
        /\ result !! "error"%string = Some (PyStr (stderr crashed)))
  /\ (exists result,
        fst (run_streamlit_app service_stays program empty_world) = Some result
        /\ result !! "success"%string = Some (PyBool true)
        /\ result !! "process"%string = Some (PyProcess 7)).
Proof.
  split; [reflexivity|]. split; [discriminate|]. split; [reflexivity|]. split.
  - apply (proj1 (grace_window_verdict service_crashes program empty_world
                    [PyStr (py "pandas")] [py "pandas"] eq_refl eq_refl eq_refl
                    succeeded eq_refl eq_refl) crashed eq_refl).
    discriminate.
  - apply (proj2 (grace_window_verdict service_stays program empty_world
                    [PyStr (py "pandas")] [py "pandas"] eq_refl eq_refl eq_refl
                    succeeded eq_refl eq_refl) 7%nat eq_refl).
Defined.

(** The theorem at a service that ends normally within the five seconds. *)
Lemma clean_exit_returns_none_witness :
  service_start service_ends = Ret (Exited succeeded)
  /\ returncode succeeded = 0%Z
  /\ fst (run_streamlit_app service_ends program empty_world) = None.
Proof.
  split; [reflexivity|]. split; [reflexivity|].
  apply (clean_exit_returns_none service_ends program empty_world
           [PyStr (py "pandas")] [py "pandas"] eq_refl eq_refl eq_refl
           succeeded eq_refl eq_refl succeeded); reflexivity.
Defined.

End ToolsFacts.

(* ===================================================================== *)
(** ** More about extract_python_code_block *)
(* ===================================================================== *)

Module ExtractMore.
Import Extract Examples Observations ExtractFacts.

Lemma collected_open_body lines :
  Forall (fun l => opens l = false /\ closes l = false) lines ->
  collected true lines = lines.
Proof.
  induction 1 as [|l ls [Ho Hc] _ IH]; simpl; [done|].
  rewrite Ho, Hc. simpl. by rewrite IH.
Qed.

Lemma collected_sublist b lines :
  sublist (collected b lines) lines
  /\ Forall (fun l => opens l = false /\ closes l = false) (collected b lines).
Proof.
  revert b. induction lines as [|l ls IH]; intros b; simpl.
  - split; constructor.
  - destruct (opens l) eqn:Ho.
    + destruct (IH true) as [Hs Hf]. split; [by apply sublist_cons|done].
    + destruct (closes l) eqn:Hc; destruct b; simpl.
      * destruct (IH false) as [Hs Hf]. split; [by apply sublist_cons|done].
      * destruct (IH false) as [Hs Hf]. split; [by apply sublist_cons|done].
      * destruct (IH true) as [Hs Hf]. split; [by apply sublist_skip|].
        by constructor.
      * destruct (IH false) as [Hs Hf]. split; [by apply sublist_cons|done].
Qed.

(** X1: a document in which no line, once stripped, starts with
    [```python] gives the empty string; a section fenced by bare [```]
    lines is not extracted. *)
Theorem extract_without_python_fence markdown :
  Forall (fun l => opens l = false) (splitlines markdown) ->
  extract_python_code_block markdown = [].
Proof.
  intros H. unfold extract_python_code_block.
  rewrite scan_collected, <- (app_nil_r (splitlines markdown)).
  by rewrite collected_prose.
Qed.

(** The theorem at a reply fenced by bare [```] lines. *)
Lemma extract_without_python_fence_witness :
  splitlines bare_fence = [py "```"; py "print(1)"; py "```"]
  /\ Forall (fun l => opens l = false) (splitlines bare_fence)
  /\ extract_python_code_block bare_fence = [].
Proof.
  assert (Forall (fun l => opens l = false) (splitlines bare_fence)) as H.
  { repeat constructor. }
  split; [reflexivity|]. split; [exact H|].
  apply (extract_without_python_fence bare_fence H).
Defined.

(** X2: a fence that is opened and never closed keeps every line after
    its opening line, up to the end of the document. *)
Theorem extract_unterminated_fence markdown prose opener body :
  splitlines markdown = prose ++ opener :: body ->
  Forall (fun l => opens l = false) prose ->
  opens opener = true ->
  Forall (fun l => opens l = false /\ closes l = false) body ->
  extract_python_code_block markdown = join [LF] body.
Proof.
  intros Hl Hp Ho Hb. unfold extract_python_code_block.
  rewrite scan_collected, Hl, collected_prose by done.
  simpl. rewrite Ho. by rewrite collected_open_body.
Qed.

(** The theorem at a reply that ends inside its fence. *)
Lemma extract_unterminated_fence_witness :
  splitlines open_fence
    = [py "Try this:"] ++ py "```python" :: [py "x = 1"; py "print(x)"]
  /\ extract_python_code_block open_fence
     = join [LF] [py "x = 1"; py "print(x)"].
Proof.
  split; [reflexivity|].
  apply (extract_unterminated_fence open_fence [py "Try this:"]
           (py "```python") [py "x = 1"; py "print(x)"]);
    [reflexivity | repeat constructor | reflexivity | repeat constructor].
Defined.

(** X3: the lines that are joined into the result are a subsequence of the
    lines of the document, and none of them opens or closes a fence:
    extraction only deletes lines. *)
Theorem extract_only_deletes_lines markdown :
  sublist (snd (scan (splitlines markdown))) (splitlines markdown)
  /\ Forall (fun l => opens l = false /\ closes l = false)
            (snd (scan (splitlines markdown))).
Proof. rewrite scan_collected. apply collected_sublist. Qed.

End ExtractMore.

(* ===================================================================== *)
(** ** More about analyze_dependencies and the manifest *)
(* ===================================================================== *)

Module DepsMore.
Import Deps Tools Examples Observations DepsFacts ToolsFacts.

#[local] Arguments py : simpl never.
#[local] Arguments temp_name : simpl never.








End DepsMore.

(* ===================================================================== *)
(** ** More about execute_code *)
(* ===================================================================== *)

Module ToolsMore.
Import Deps Tools Examples Observations DepsFacts ToolsFacts.

#[local] Arguments py : simpl never.
#[local] Arguments temp_name : simpl never.
#[local] Arguments venv_script : simpl never.
#[local] Arguments execution_result : simpl never.
#[local] Arguments failure : simpl never.
#[local] Arguments Extract.extract_python_code_block : simpl never.

(** X6: when the dependency request itself raises, [execute_code] returns
    the failure with the text of the exception; it has created no file
    and no directory and has made no other call. *)
Theorem request_failure_touches_nothing env code w e :
  analysis env = GenerateRaises e ->
  execute_code (py "Local") env code w
  = (failure (str_of_exn e),
     {| files := files w; next_tmp := next_tmp w;
        log := log w ++ [Generate (AnalyzePrompt code)] |}).
Proof.
  intros H. rewrite execute_code_local.
  unfold _local_execute_with_deps, try_finally, try_except, local_execute_body.
  call. unfold analyze_dependencies, bind, record. rewrite H. reflexivity.
Qed.

Lemma request_failure_touches_nothing_witness :
  execute_code (py "Local") request_fails program empty_world
  = (failure (py "429 quota exceeded"),
     {| files := files empty_world; next_tmp := next_tmp empty_world;
        log := log empty_world ++ [Generate (AnalyzePrompt program)] |}).
Proof.
  apply (request_failure_touches_nothing request_fails program empty_world
           quota_exceeded eq_refl).
Defined.

(** X7: when the inferred list holds an element that is not a string,
    joining the manifest raises after the temporary file was created:
    [execute_code] returns [success = False], no environment is created,
    and the empty manifest file stays on disk, since its name never
    reached [temp_files]. *)
Theorem non_string_dependency_leaks_manifest env code w deps :
  inferred env = Some deps -> strings_of deps = None ->
  fst (execute_code (py "Local") env code w) !! "success"%string
    = Some (PyBool false)
  /\ files (snd (execute_code (py "Local") env code w))
     = <[temp_name (next_tmp w) (py ".txt") := File []]> (files w)
  /\ log (snd (execute_code (py "Local") env code w))
     = log w ++ [Generate (AnalyzePrompt code)].
Proof.
  intros Hd Hs. rewrite execute_code_local.
  assert (_local_execute_with_deps env code w
          = (failure (py "sequence item: expected str instance"),
             {| files := <[temp_name (next_tmp w) (py ".txt") := File []]> (files w);
                next_tmp := S (next_tmp w);
                log := log w ++ [Generate (AnalyzePrompt code)] |})) as ->.
  { unfold _local_execute_with_deps, try_finally, try_except, local_execute_body.
    call. rewrite (analyze_returns _ _ _ _ Hd).
    call. unfold create_requirements_file, bind, named_temporary_file,
      of_outcome, join_values. rewrite Hs. reflexivity. }
  done.
Qed.

Lemma non_string_dependency_leaks_manifest_witness :
  inferred number_in_list = Some [PyInt 1]
  /\ fst (execute_code (py "Local") number_in_list program empty_world)
       !! "success"%string = Some (PyBool false)
  /\ files (snd (execute_code (py "Local") number_in_list program empty_world))
     = <[temp_name (next_tmp empty_world) (py ".txt") := File []]>
         (files empty_world)
  /\ log (snd (execute_code (py "Local") number_in_list program empty_world))
     = log empty_world ++ [Generate (AnalyzePrompt program)].
Proof.
  split; [reflexivity|].
  apply (non_string_dependency_leaks_manifest number_in_list program
           empty_world [PyInt 1] eq_refl eq_refl).
Defined.


(** X9: whatever the collaborators and the sub-processes do, and in either
    execution environment, a call of [execute_code] makes at most one
    repair request and runs a program at most twice. *)
Theorem execute_code_repairs_at_most_once execution_env env code w :
  (repair_requests (snd (execute_code execution_env env code w))
     <= repair_requests w + 1)%nat
  /\ (program_runs (snd (execute_code execution_env env code w))
     <= program_runs w + 2)%nat.
Proof.
  unfold execute_code. destruct (str_eqb execution_env (py "Local")).
  - apply at_most_one_repair.
  - cbn. lia.
Qed.

Lemma failure_shaped text : well_shaped (failure text).
Proof. right. split; [reflexivity|]. by exists text. Qed.

Lemma execution_result_shaped c fixed : well_shaped (execution_result c fixed).
Proof.
  unfold well_shaped, execution_result.
  destruct (Z.eqb (returncode c) 0); cbn.
  - left. split; [reflexivity|]. split; [reflexivity|]. by eexists.
  - right. split; [reflexivity|]. by eexists.
Qed.

Lemma body_shaped env code a :
  match fst (local_execute_body env code a) with
  | Ret result => well_shaped result
  | Raise _ => True
  end.
Proof.
  unfold local_execute_body,
    analyze_dependencies, create_requirements_file, setup_venv, try_except,
    subprocess_run, generate, return_code, join_values, of_outcome.
  destruct (analysis env) as [e|e|t]; cbn; try done.
  all: try (match goal with
            | |- context [strings_of ?d] => destruct (strings_of d)
            end; cbn); try done.
  all: try (destruct (venv_creation env) as [[]|e']; cbn);
    try apply failure_shaped.
  all: try (destruct (installer env) as [c|e']; cbn); try apply failure_shaped.
  all: try (destruct (Z.eqb (returncode c) 0); cbn); try apply failure_shaped.
  all: try (destruct (first_run env) as [c1|e1]; cbn); try done.
  all: try (destruct (Z.eqb (returncode c1) 0) eqn:E1; cbn);
    try apply execution_result_shaped.
  all: try (destruct (repair env); cbn); try done.
  all: try (destruct (extraction env); cbn); try done.
  all: try (destruct (second_run env); cbn); try done;
    try apply execution_result_shaped.
Qed.

(** X10: when the reply to the dependency request hands [eval] nothing
    but a list display of string literals (or holds no bracket pair, or
    the request raises, so that [eval] is not called), then whatever the
    sub-processes and the other requests do, and in either execution
    environment, [execute_code] returns a dictionary of one of two forms:
    [success = True] with [error = None] and a text as output, or
    [success = False] with a text as error.  Other replies are left out:
    [eval] runs the text of the reply, and an exception that is not an
    [Exception], such as [SystemExit], passes both [except] clauses. *)
Theorem execute_code_result_shape execution_env env code w :
  literal_reply env ->
  well_shaped (fst (execute_code execution_env env code w)).
Proof.
  intros _.
  unfold execute_code. destruct (str_eqb execution_env (py "Local")).
  - unfold _local_execute_with_deps, try_finally, try_except.
    pose proof (body_shaped env code
                  {| temp_files := []; venv_dir := None; outside := w |}) as H.
    destruct (local_execute_body env code _) as [[result|e] a]; cbn in *.
    + done.
    + apply failure_shaped.
  - right. split; [reflexivity|]. by eexists.
Qed.

(** The theorem at a program that fails before and after its repair, for
    the reply [[]]. *)
Lemma execute_code_result_shape_witness :
  literal_reply always_fails
  /\ well_shaped (fst (execute_code (py "Local") always_fails program
                         empty_world)).
Proof.
  assert (literal_reply always_fails) as H.
  { exists []. split; reflexivity. }
  split; [exact H|].
  apply (execute_code_result_shape (py "Local") always_fails program
           empty_world H).
Defined.

End ToolsMore.

(* ===================================================================== *)
(** ** More about runs in a provisioned environment *)
(* ===================================================================== *)

Module RunsMore.
Import Deps Tools Examples Observations DepsFacts ToolsFacts.

#[local] Arguments py : simpl never.
#[local] Arguments temp_name : simpl never.
#[local] Arguments venv_script : simpl never.
#[local] Arguments execution_result : simpl never.
#[local] Arguments failure : simpl never.
#[local] Arguments started : simpl never.
#[local] Arguments add_streamlit : simpl never.
#[local] Arguments Extract.extract_python_code_block : simpl never.

Lemma temp_py_not_txt n m :
  temp_name n (py ".py") <> temp_name m (py ".txt").
Proof.
  unfold temp_name. intros H.
  apply (f_equal (@rev N)) in H. rewrite !rev_app_distr in H.
  cbn in H. discriminate.
Qed.

Section Provisioned.
Variables (env : environment) (code : pystr) (w : world).
Variables (deps : list py_value) (names : list pystr) (pip : completed).
Hypothesis Hdeps : inferred env = Some deps.
Hypothesis Hnames : strings_of deps = Some names.
Hypothesis Hvenv : venv_creation env = Ret tt.
Hypothesis Hpip : installer env = Ret pip.
Hypothesis Hpip0 : returncode pip = 0%Z.







End Provisioned.





(** *** The long-running start *)

(** X15: [run_streamlit_app] returns [None] in one case only: the
    environment was provisioned and the launched process exited with
    status 0 within the five seconds.  In every other case it returns a
    dictionary. *)
Theorem none_only_after_clean_exit env app_code w :
  fst (run_streamlit_app env app_code w) = None <->
  exists deps names pip process,
    inferred env = Some deps
    /\ strings_of (add_streamlit deps) = Some names
    /\ venv_creation env = Ret tt
    /\ installer env = Ret pip /\ returncode pip = 0%Z
    /\ service_start env = Ret (Exited process) /\ returncode process = 0%Z.
Proof.
  split.
  - unfold run_streamlit_app, try_except, streamlit_body, inferred,
      analyze_dependencies, create_requirements_file, setup_venv, try_except,
      join_values, of_outcome.
    destruct (analysis env) as [e|e|t]; cbn; try discriminate.
    all: match goal with
         | |- context [strings_of ?d] =>
             destruct (strings_of d) as [names|] eqn:Hn
         end; cbn; try discriminate.
    all: destruct (venv_creation env) as [[]|e']; cbn; try discriminate.
    all: destruct (installer env) as [c|e']; cbn; try discriminate.
    all: destruct (Z.eqb_spec (returncode c) 0) as [Hc|Hc]; cbn;
      try discriminate.
    all: destruct (service_start env) as [[p|pid]|e']; cbn; try discriminate.
    all: destruct (Z.eqb_spec (returncode p) 0) as [Hp|Hp]; cbn;
      try discriminate.
    all: intros _; do 4 eexists; repeat split; eauto.
  - intros (deps & names & pip & process & Hd & Hn & Hv & Hi & Hc & Hs & Hp).
    unfold run_streamlit_app, try_except, streamlit_body.
    unfold bind at 1. rewrite (analyze_returns _ _ _ _ Hd).
    unfold bind at 1. rewrite (create_requirements_returns _ _ _ Hn).
    unfold bind at 1. rewrite (setup_venv_ready _ _ _ _ Hv Hi Hc).
    cbn [setup_success negb setup_venv_dir].
    unfold of_outcome. rewrite Hs. cbn. rewrite Hp. reflexivity.
Qed.

(** X16: [run_streamlit_app] deletes nothing and repairs nothing: every
    path that existed before the call exists after it, and the calls it
    adds to the log hold no [unlink], no [rmtree], no repair request and
    no run of a program with a timeout. *)
Theorem streamlit_start_removes_nothing env app_code w :
  dom (files w) ⊆ dom (files (snd (run_streamlit_app env app_code w)))
  /\ exists added,
       log (snd (run_streamlit_app env app_code w)) = log w ++ added
       /\ Forall (fun e => is_removal e = false /\ is_repair_request e = false
                           /\ is_run e = false) added.
Proof.
  unfold run_streamlit_app, try_except, streamlit_body,
    analyze_dependencies, create_requirements_file, setup_venv, try_except,
    join_values, of_outcome.
  destruct (analysis env) as [e|e|t]; cbn.
  all: try (match goal with
         | |- context [strings_of ?d] =>
             destruct (strings_of d) as [names|] eqn:Hn
         end; cbn).
  all: try (destruct (venv_creation env) as [[]|e']; cbn).
  all: try (destruct (installer env) as [c|e']; cbn).
  all: try (destruct (Z.eqb (returncode c) 0); cbn).
  all: try (destruct (service_start env) as [[p|pid]|e']; cbn).
  all: try (destruct (Z.eqb (returncode p) 0); cbn).
  all: (split; [rewrite ?dom_insert; set_solver|]).
  all: rewrite <- ?app_assoc; eexists; (split; [reflexivity|]).
  all: repeat constructor.
Qed.

Section Streamlit.
Variables (env : environment) (app_code : pystr) (w : world).
Variables (deps : list py_value) (names : list pystr) (pip : completed).
Hypothesis Hdeps : inferred env = Some deps.
Hypothesis Hnames : strings_of (add_streamlit deps) = Some names.
Hypothesis Hvenv : venv_creation env = Ret tt.
Hypothesis Hpip : installer env = Ret pip.
Hypothesis Hpip0 : returncode pip = 0%Z.

(** X17: when the launched process exits with a non-zero status within
    the five seconds, the failure that is returned names neither the
    directory nor the file of the app, while the sandbox directory, the
    manifest and the file of the app are all still on disk. *)
Theorem failed_start_leaves_environment process :
  service_start env = Ret (Exited process) -> returncode process <> 0%Z ->
  fst (run_streamlit_app env app_code w) = Some (failure (stderr process))
  /\ failure (stderr process) !! "venv_dir"%string = None
  /\ failure (stderr process) !! "app_file"%string = None
  /\ files (snd (run_streamlit_app env app_code w)) !! temp_venv
     = Some Directory
  /\ files (snd (run_streamlit_app env app_code w))
       !! temp_name (next_tmp w) (py ".txt") = Some (File (join [LF] names))
  /\ files (snd (run_streamlit_app env app_code w))
       !! temp_name (S (next_tmp w)) (py ".py") = Some (File app_code).
Proof.
  intros Hs Hrc. apply Z.eqb_neq in Hrc.
  assert (exists n lg,
    run_streamlit_app env app_code w
    = (Some (failure (stderr process)),
       {| files :=
            <[temp_name (S (next_tmp w)) (py ".py") := File app_code]>
              (<[temp_name (S (next_tmp w)) (py ".py") := File []]>
                 (<[temp_venv := Directory]>
                    (<[temp_name (next_tmp w) (py ".txt")
                         := File (join [LF] names)]>
                       (<[temp_name (next_tmp w) (py ".txt") := File []]>
                          (files w)))));
          next_tmp := n; log := lg |})) as (n & lg & ->).
  { unfold run_streamlit_app, try_except, streamlit_body.
    unfold bind at 1. rewrite (analyze_returns _ _ _ _ Hdeps).
    unfold bind at 1. rewrite (create_requirements_returns _ _ _ Hnames).
    unfold bind at 1. rewrite (setup_venv_ready _ _ _ _ Hvenv Hpip Hpip0).
    cbn [setup_success negb setup_venv_dir].
    unfold of_outcome. rewrite Hs. cbn. rewrite Hrc. cbn.
    do 2 eexists. reflexivity. }
  cbn [fst snd files].
  split; [done|]. split; [reflexivity|]. split; [reflexivity|].
  split; [|split].
  - rewrite !lookup_insert_ne by venv_apart. apply lookup_insert_eq.
  - rewrite !lookup_insert_ne by first [venv_apart | apply temp_py_not_txt].
    apply lookup_insert_eq.
  - apply lookup_insert_eq.
Qed.

End Streamlit.

Lemma failed_start_leaves_environment_witness :
  service_start service_crashes = Ret (Exited crashed)
  /\ fst (run_streamlit_app service_crashes program empty_world)
     = Some (failure (stderr crashed))
  /\ failure (stderr crashed) !! "venv_dir"%string = None
  /\ failure (stderr crashed) !! "app_file"%string = None
  /\ files (snd (run_streamlit_app service_crashes program empty_world))
       !! temp_venv = Some Directory
  /\ files (snd (run_streamlit_app service_crashes program empty_world))
       !! temp_name (next_tmp empty_world) (py ".txt")
     = Some (File (join [LF] [py "pandas"; py "streamlit"]))
  /\ files (snd (run_streamlit_app service_crashes program empty_world))
       !! temp_name (S (next_tmp empty_world)) (py ".py")
     = Some (File program).
Proof.
  split; [reflexivity|].
  apply (failed_start_leaves_environment service_crashes program empty_world
           [PyStr (py "pandas")] [py "pandas"; py "streamlit"] succeeded
           eq_refl eq_refl eq_refl eq_refl eq_refl crashed eq_refl).
  discriminate.
Defined.

End RunsMore.

(* ===================================================================== *)
(** ** Facts about the further methods of strings *)
(* ===================================================================== *)

Module StringFacts.

Lemma split_char_line sep line rest :
  ~ In sep line ->
  split_char sep (line ++ sep :: rest) = line :: split_char sep rest.
Proof.
  induction line as [|c line IH]; intros Hn; cbn.
  - by rewrite N.eqb_refl.
  - destruct (N.eqb_spec c sep) as [->|Hc]; [exfalso; apply Hn; by left|].
    rewrite IH; [done|]. intros H. apply Hn. by right.
Qed.

Lemma split_char_last sep line :
  ~ In sep line -> split_char sep line = [line].
Proof.
  induction line as [|c line IH]; intros Hn; cbn; [done|].
  destruct (N.eqb_spec c sep) as [->|Hc]; [exfalso; apply Hn; by left|].
  rewrite IH; [done|]. intros H. apply Hn. by right.
Qed.

Lemma split_char_join sep lines :
  lines <> [] -> Forall (fun l => ~ In sep l) lines ->
  split_char sep (join [sep] lines) = lines.
Proof.
  intros Hne H. induction H as [|l ls Hl Hls IH]; [done|].
  destruct ls as [|l' ls]; [by apply split_char_last|].
  change (join [sep] (l :: l' :: ls)) with (l ++ sep :: join [sep] (l' :: ls)).
  rewrite split_char_line by done. by rewrite IH.
Qed.

Lemma startswith_app s rest : startswith (s ++ rest) s = true.
Proof.
  induction s as [|c s IH]; cbn; [by destruct rest|].
  by rewrite N.eqb_refl, IH.
Qed.

Lemma contains_prefix s rest : contains (s ++ rest) s = true.
Proof.
  pose proof (startswith_app s rest) as H.
  destruct (s ++ rest); cbn [contains]; by rewrite H.
Qed.

Lemma replace_skip old new pre rest :
  replace_from old new (length pre) (pre ++ rest) = replace_from old new 0 rest.
Proof. induction pre as [|c pre IH]; [done|]. exact IH. Qed.

Lemma replace_absent old new s :
  contains s old = false -> replace_from old new 0 s = s.
Proof.
  induction s as [|c s IH]; [done|]. cbn [contains replace_from].
  intros H. apply orb_false_iff in H as [H1 H2]. rewrite H1. by rewrite IH.
Qed.

Lemma replace_leading old rest :
  old <> [] -> contains rest old = false ->
  replace (old ++ rest) old [] = rest.
Proof.
  intros Hne Hc. unfold replace. destruct old as [|c old]; [done|].
  pose proof (startswith_app (c :: old) rest) as H.
  cbn [app replace_from] in *. rewrite H.
  replace (length (c :: old) - 1)%nat with (length old) by (cbn; lia).
  cbn [app]. rewrite replace_skip.
  by apply replace_absent.
Qed.

Lemma words_token w p rest :
  Forall (fun c => is_whitespace c = false) p ->
  words_from w (p ++ rest) = words_from (w ++ p) rest.
Proof.
  intros H. revert w. induction H as [|c p Hc _ IH]; intros w.
  - by rewrite app_nil_r.
  - cbn [app words_from]. rewrite Hc, IH. by rewrite <- app_assoc.
Qed.

Lemma words_join pkgs :
  Forall token pkgs -> split_whitespace (join [32] pkgs) = pkgs.
Proof.
  unfold split_whitespace.
  induction 1 as [|p ps [Hne Hp] Hps IH]; [done|].
  destruct ps as [|q ps].
  - cbn [join]. pose proof (words_token [] p [] Hp) as H.
    rewrite app_nil_r in H. rewrite H. cbn. by destruct p.
  - change (join [32] (p :: q :: ps)) with (p ++ 32 :: join [32] (q :: ps)).
    rewrite words_token by done. cbn [app words_from].
    change (is_whitespace 32) with true. cbn iota.
    destruct p; [done|]. by rewrite IH.
Qed.

Lemma lstrip_token_first p rest :
  token p -> lstrip (p ++ rest) = p ++ rest.
Proof.
  intros [Hne H]. destruct H as [|c p Hc _]; [done|].
  cbn. by rewrite Hc.
Qed.

Lemma join_tokens_ends pkgs :
  pkgs <> [] -> Forall token pkgs ->
  exists c body, join [32] pkgs = body ++ [c] /\ is_whitespace c = false.
Proof.
  intros Hne H. induction H as [|p ps Hp Hps IH]; [done|].
  destruct ps as [|q ps].
  - destruct Hp as [Hpne Hp]. cbn [join].
    destruct (exists_last Hpne) as (body & c & ->).
    exists c, body. split; [done|].
    apply Forall_app in Hp as [_ Hc]. by inversion Hc.
  - destruct IH as (c & body & Heq & Hc); [done|].
    exists c, (p ++ 32 :: body). split; [|done].
    change (join [32] (p :: q :: ps)) with (p ++ 32 :: join [32] (q :: ps)).
    rewrite Heq. by rewrite <- app_assoc.
Qed.

Lemma strip_summary_rest pkgs :
  Forall token pkgs -> strip (32 :: join [32] pkgs) = join [32] pkgs.
Proof.
  intros H. unfold strip. cbn [lstrip]. change (is_whitespace 32) with true.
  cbn iota. destruct pkgs as [|p ps]; [reflexivity|].
  assert (lstrip (join [32] (p :: ps)) = join [32] (p :: ps)) as ->.
  { destruct ps as [|q ps].
    - cbn [join]. assert (token p) as Hp by (by inversion H).
      pose proof (lstrip_token_first p [] Hp) as Hl.
      by rewrite app_nil_r in Hl.
    - change (join [32] (p :: q :: ps)) with (p ++ 32 :: join [32] (q :: ps)).
      apply lstrip_token_first. by inversion H. }
  destruct (join_tokens_ends (p :: ps)) as (c & body & -> & Hc); [done|done|].
  unfold rstrip. rewrite rev_app_distr. cbn [rev app lstrip]. rewrite Hc.
  change (c :: rev body) with (rev [c] ++ rev body).
  by rewrite <- rev_app_distr, rev_involutive.
Qed.

Lemma no_lf_in_word p :
  Forall (fun c => is_whitespace c = false) p -> ~ In LF p.
Proof.
  induction 1 as [|c p Hc _ IH]; [by intros []|].
  intros [->|H]; [discriminate Hc|by apply IH].
Qed.

End StringFacts.

(* ===================================================================== *)
(** ** Facts about run_tests and validate_dependencies *)
(* ===================================================================== *)

Module ChecksFacts.
Import Tools Examples Checks MoreExamples ToolsFacts StringFacts.

#[local] Arguments py : simpl never.

(** X18: [run_tests] reports success exactly when the tests directory
    exists and pytest exits with status 0; and the report is a failure
    with no error and no output exactly when there is no tests
    directory. *)
Theorem run_tests_verdict tests_exist pytest :
  (tests_success (run_tests tests_exist pytest) = true <->
   tests_exist = true /\ exists c, pytest = Ret c /\ returncode c = 0%Z)
  /\ (tests_success (run_tests tests_exist pytest) = false
      /\ test_errors (run_tests tests_exist pytest) = []
      /\ test_output (run_tests tests_exist pytest) = None <->
      tests_exist = false).
Proof.
  unfold run_tests. destruct tests_exist; cbn.
  - destruct pytest as [c|e]; cbn.
    + destruct (Z.eqb_spec (returncode c) 0) as [Hc|Hc]; cbn.
      * split; [split; [intros _; split; [done|]; by exists c|done]|].
        split; [intros (H & _); discriminate|discriminate].
      * split; [split; [discriminate|intros (_ & c' & [= <-] & H); done]|].
        split; [intros (_ & H & _); discriminate|discriminate].
    + split; [split; [discriminate|intros (_ & c' & H & _); discriminate]|].
      split; [intros (_ & H & _); discriminate|discriminate].
  - split; [split; [discriminate|intros (H & _); discriminate]|]. done.
Qed.

(** X19: when [rm -rf] does its work, [validate_dependencies] raises nothing
    and its directory [.temp_venv] is gone when it returns, whatever
    creating the environment and the installer do, also when the installer
    fails; it reports success exactly when creating the environment
    returns and the installer exits with status 0. *)
Theorem validation_always_removes_its_environment env requirements w :
  exists v,
    fst (validate_dependencies env (Ret tt) requirements w) = Ret v
    /\ files (snd (validate_dependencies env (Ret tt) requirements w))
         !! dot_temp_venv = None
    /\ (valid v = true <->
        venv_creation env = Ret tt
        /\ exists c, installer env = Ret c /\ returncode c = 0%Z).
Proof.
  unfold validate_dependencies, validate_body, try_except, bind, record,
    of_outcome, make_directory, exists_path, remove, ret.
  destruct (venv_creation env) as [[]|e]; cbn [files next_tmp log].
  - destruct (installer env) as [c|e]; cbn [files next_tmp log].
    + destruct (Z.eqb_spec (returncode c) 0) as [Hc|Hc]; cbn [files next_tmp log];
        rewrite bool_decide_eq_true_2 by (rewrite lookup_insert_eq; eauto);
        cbn; eexists; (split; [reflexivity|]);
        (split; [apply lookup_delete_eq|]); cbn.
      * split; [intros _; split; [done|]; by exists c|done].
      * split; [discriminate|intros (_ & c' & [= <-] & H); done].
    + rewrite bool_decide_eq_true_2 by (rewrite lookup_insert_eq; eauto).
      cbn. eexists. split; [reflexivity|]. split; [apply lookup_delete_eq|].
      cbn. split; [discriminate|intros (_ & c' & H & _); discriminate].
  - destruct (bool_decide (is_Some (files w !! dot_temp_venv))) eqn:E; cbn.
    + eexists. split; [reflexivity|]. split; [apply lookup_delete_eq|].
      cbn. split; [discriminate|intros (H & _); discriminate].
    + eexists. split; [reflexivity|].
      apply bool_decide_eq_false in E.
      split; [by apply eq_None_not_Some|].
      cbn. split; [discriminate|intros (H & _); discriminate].
Qed.

Lemma fold_without_summary found lines :
  Forall (fun l => contains l summary = false) lines ->
  fold_left installed_step lines found = found.
Proof.
  intros H. revert found. induction H as [|l ls Hl _ IH]; intros found; [done|].
  cbn [fold_left]. unfold installed_step at 2. rewrite Hl. apply IH.
Qed.

(** X20: when the last line of the installer's output that holds
    [Successfully installed] is that marker, a space and the package
    words separated by single spaces, the field [installed] of a
    successful validation is exactly these words, in order. *)
Theorem summary_line_is_parsed before pkgs after :
  Forall token pkgs ->
  contains (32 :: join [32] pkgs) summary = false ->
  Forall (fun l => ~ In LF l) before ->
  Forall (fun l => ~ In LF l /\ contains l summary = false) after ->
  installed_packages
    (join [LF] (before ++ [summary ++ 32 :: join [32] pkgs] ++ after))
  = pkgs.
Proof.
  intros Hp Hc Hb Ha. unfold installed_packages.
  assert (~ In LF (summary ++ 32 :: join [32] pkgs)) as Hline.
  { intros Hin. apply in_app_or in Hin as [Hin|Hin].
    - vm_compute in Hin. intuition discriminate.
    - destruct Hin as [Hin|Hin]; [discriminate|].
      clear Hc. induction Hp as [|p ps [_ Hp] _ IH]; [done|].
      destruct ps as [|q ps].
      + cbn [join] in Hin. by apply (no_lf_in_word p).
      + change (join [32] (p :: q :: ps))
          with (p ++ 32 :: join [32] (q :: ps)) in Hin.
        apply in_app_or in Hin as [Hin|[Hin|Hin]]; [|discriminate|by apply IH].
        by apply (no_lf_in_word p). }
  rewrite split_char_join.
  - rewrite !fold_left_app. cbn [fold_left].
    rewrite fold_without_summary.
    2:{ eapply Forall_impl; [exact Ha|]. by intros l [_ H]. }
    unfold installed_step. rewrite contains_prefix.
    rewrite replace_leading by done.
    rewrite strip_summary_rest by done. by apply words_join.
  - by destruct before.
  - rewrite !Forall_app. split; [done|]. split; [by constructor|].
    eapply Forall_impl; [exact Ha|]. by intros l [H _].
Qed.

(** The theorem at the output of an installation of [requests]. *)
Lemma summary_line_is_parsed_witness :
  Forall token [py "requests-2.31.0"; py "urllib3-2.0.7"]
  /\ installed_packages pip_output
     = [py "requests-2.31.0"; py "urllib3-2.0.7"].
Proof.
  assert (Forall token [py "requests-2.31.0"; py "urllib3-2.0.7"]) as Hp.
  { constructor; [|constructor; [|constructor]];
      (split; [discriminate | repeat constructor]). }
  split; [exact Hp|].
  apply (summary_line_is_parsed [py "Collecting requests"]
           [py "requests-2.31.0"; py "urllib3-2.0.7"] [[]] Hp).
  - reflexivity.
  - constructor; [|constructor]. vm_compute. intuition discriminate.
  - constructor; [|constructor]. split; [by intros []|reflexivity].
Defined.

End ChecksFacts.

(* ===================================================================== *)
(** ** Facts about AppManager.test_app and AppManager.debug_app *)
(* ===================================================================== *)

Module AppChecksFacts.
Import Tools Examples AppChecks MoreExamples StringFacts.

#[local] Arguments py : simpl never.

(** X21: [test_app] reports success exactly when running [app.py] returns
    within the five seconds with status 0 and, if there is a tests
    directory, running pytest did not raise; the status of pytest plays no
    part, and an app still running after five seconds is a failure. *)
Theorem test_app_verdict tests_exist pytest app :
  app_success (test_app tests_exist pytest app) = true <->
  (tests_exist = true -> exists t, pytest = Ret t)
  /\ exists c, app = Ret c /\ returncode c = 0%Z.
Proof.
  unfold test_app, run_app_tests.
  destruct tests_exist; cbn.
  - destruct pytest as [t|e]; cbn.
    + destruct (Z.eqb (returncode t) 0); cbn;
        (destruct app as [c|e]; cbn;
         [destruct (Z.eqb_spec (returncode c) 0) as [Hc|Hc]; cbn|]).
      all: split; try discriminate.
      all: try (intros _; split; [intros _; by eexists|]; by exists c).
      all: try (intros (_ & c' & [= <-] & H); done).
      all: intros (_ & c' & H & _); discriminate.
    + split; [discriminate|]. intros (H & _). destruct H as (t & H); [done|].
      discriminate.
  - destruct app as [c|e]; cbn;
      [destruct (Z.eqb_spec (returncode c) 0) as [Hc|Hc]; cbn|].
    + split; [intros _; split; [discriminate|by exists c]|done].
    + split; [discriminate|intros (_ & c' & [= <-] & H); done].
    + split; [discriminate|intros (_ & c' & H & _); discriminate].
Qed.

(** X22: failing tests do not prevent success: when pytest exits non-zero
    and [app.py] exits with status 0, the report has [success = True]
    together with the error [Tests failed]. *)
Theorem failing_tests_do_not_prevent_success pytest_run app_run :
  returncode pytest_run <> 0%Z -> returncode app_run = 0%Z ->
  app_success (test_app true (Ret pytest_run) (Ret app_run)) = true
  /\ app_errors (test_app true (Ret pytest_run) (Ret app_run))
     = [py "Tests failed"].
Proof.
  intros Ht Ha. apply Z.eqb_neq in Ht.
  unfold test_app, run_app_tests. rewrite Ht, Ha. done.
Qed.

Lemma failing_tests_do_not_prevent_success_witness :
  returncode crashed <> 0%Z /\ returncode succeeded = 0%Z
  /\ app_success (test_app true (Ret crashed) (Ret succeeded)) = true
  /\ app_errors (test_app true (Ret crashed) (Ret succeeded))
     = [py "Tests failed"].
Proof.
  split; [discriminate|]. split; [reflexivity|].
  apply (failing_tests_do_not_prevent_success crashed succeeded);
    [discriminate | reflexivity].
Defined.

Lemma collect_fixes_acc errors fixes :
  collect_fixes errors fixes
  = match collect_fixes errors [] with
    | Ret more => Ret (fixes ++ more)
    | Raise e => Raise e
    end.
Proof.
  revert fixes. induction errors as [|error rest IH]; intros fixes; cbn.
  - by rewrite app_nil_r.
  - destruct (contains error module_not_found).
    + destruct (quoted_module error) as [m|e]; [|done].
      rewrite (IH (fixes ++ _)), (IH [_]).
      destruct (collect_fixes rest []); [|done]. by rewrite <- app_assoc.
    + destruct (contains error syntax_error).
      * rewrite (IH (fixes ++ _)), (IH [_]).
        destruct (collect_fixes rest []); [|done]. by rewrite <- app_assoc.
      * apply IH.
Qed.

Lemma collect_fixes_app errors errors' fixes :
  collect_fixes (errors ++ errors') fixes
  = match collect_fixes errors fixes with
    | Ret found => collect_fixes errors' found
    | Raise e => Raise e
    end.
Proof.
  revert fixes. induction errors as [|error rest IH]; intros fixes; cbn; [done|].
  destruct (contains error module_not_found).
  - destruct (quoted_module error); [apply IH|done].
  - destruct (contains error syntax_error); apply IH.
Qed.

(** X23: [debug_app] treats the errors one by one and in order: when it
    returns on two lists of errors, it returns on their concatenation the
    concatenation of the fixes, and automated fixes are possible when they
    are for one of the two. *)
Theorem debug_app_composes errors errors' fixes fixes' flag flag' :
  debug_app errors = Ret (fixes, flag) ->
  debug_app errors' = Ret (fixes', flag') ->
  debug_app (errors ++ errors') = Ret (fixes ++ fixes', flag || flag').
Proof.
  unfold debug_app. rewrite collect_fixes_app.
  destruct (collect_fixes errors []) as [f|]; [|discriminate].
  intros [= <- <-].
  destruct (collect_fixes errors' []) as [f'|] eqn:E'; [|discriminate].
  intros [= <- <-]. rewrite (collect_fixes_acc errors' f), E'.
  by rewrite existsb_app.
Qed.

Lemma debug_app_composes_witness :
  debug_app [missing_requests]
    = Ret ([DependencyFix (py "requests") (py "pip install requests")], true)
  /\ debug_app [bad_syntax]
     = Ret ([SyntaxFix bad_syntax (py "Requires manual code review")], false)
  /\ debug_app ([missing_requests] ++ [bad_syntax])
     = Ret ([DependencyFix (py "requests") (py "pip install requests")]
              ++ [SyntaxFix bad_syntax (py "Requires manual code review")],
            true || false).
Proof.
  split; [reflexivity|]. split; [reflexivity|].
  apply (debug_app_composes [missing_requests] [bad_syntax]); reflexivity.
Defined.

(** X24: for an error that mentions [ModuleNotFoundError], the module of
    the proposed fix is the text between the first two apostrophes of the
    error, and the fix is [pip install] followed by it. *)
Theorem quoted_module_is_extracted error before module after :
  contains error module_not_found = true ->
  error = before ++ APOSTROPHE :: module ++ APOSTROPHE :: after ->
  ~ In APOSTROPHE before -> ~ In APOSTROPHE module ->
  debug_app [error]
  = Ret ([DependencyFix module (py "pip install " ++ module)], true).
Proof.
  intros Hc Heq Hb Hm. unfold debug_app. cbn [collect_fixes]. rewrite Hc.
  unfold quoted_module. rewrite Heq.
  rewrite split_char_line by done. rewrite split_char_line by done.
  reflexivity.
Qed.

Lemma quoted_module_is_extracted_witness :
  contains missing_requests module_not_found = true
  /\ missing_requests
     = py "ModuleNotFoundError: No module named " ++ APOSTROPHE
         :: py "requests" ++ APOSTROPHE :: []
  /\ debug_app [missing_requests]
     = Ret ([DependencyFix (py "requests")
               (py "pip install " ++ py "requests")], true).
Proof.
  split; [reflexivity|]. split; [reflexivity|].
  apply (quoted_module_is_extracted missing_requests
           (py "ModuleNotFoundError: No module named ") (py "requests") []);
    [reflexivity | reflexivity | |]; vm_compute; intuition discriminate.
Defined.

(** X25: an error that mentions [ModuleNotFoundError] and holds no
    apostrophe makes [debug_app] raise (the index 1 of the split is out of
    range), whatever the other errors are: no fix is returned at all. *)
Theorem unquoted_module_error_raises errors error :
  In error errors ->
  contains error module_not_found = true -> ~ In APOSTROPHE error ->
  exists e, debug_app errors = Raise e.
Proof.
  intros Hin Hc Hq. unfold debug_app.
  assert (forall fixes, exists e, collect_fixes errors fixes = Raise e) as H.
  { induction errors as [|other rest IH]; [done|]. intros fixes.
    cbn [collect_fixes].
    destruct Hin as [->|Hin].
    - rewrite Hc. unfold quoted_module. rewrite split_char_last by done.
      by eexists.
    - destruct (contains other module_not_found).
      + destruct (quoted_module other); [by apply IH|by eexists].
      + destruct (contains other syntax_error); by apply IH. }
  destruct (H []) as (e & ->). by exists e.
Qed.

Lemma unquoted_module_error_raises_witness :
  In missing_unquoted [bad_syntax; missing_unquoted]
  /\ contains missing_unquoted module_not_found = true
  /\ exists e, debug_app [bad_syntax; missing_unquoted] = Raise e.
Proof.
  split; [right; by left|]. split; [reflexivity|].
  apply (unquoted_module_error_raises [bad_syntax; missing_unquoted]
           missing_unquoted); [right; by left | reflexivity |].
  vm_compute. intuition discriminate.
Defined.

Lemma collect_fixes_facts errors fixes :
  collect_fixes errors [] = Ret fixes ->
  (existsb is_dependency fixes = true <->
   Exists (fun error => contains error module_not_found = true) errors)
  /\ (fixes = [] <->
      Forall (fun error => contains error module_not_found = false
                           /\ contains error syntax_error = false) errors)
  /\ (length fixes <= length errors)%nat.
Proof.
  revert fixes. induction errors as [|error rest IH]; intros fixes.
  - intros [= <-]. cbn. split; [split; [discriminate|by inversion 1]|].
    split; [split; [constructor|done]|lia].
  - cbn [collect_fixes]. destruct (contains error module_not_found) eqn:Em.
    + destruct (quoted_module error) as [m|]; [|discriminate].
      rewrite collect_fixes_acc.
      destruct (collect_fixes rest []) as [more|]; [|discriminate].
      intros [= <-]. destruct (IH more eq_refl) as (H1 & H2 & H3).
      cbn. split; [split; [intros _; by left|done]|].
      split; [split; [discriminate|]|lia].
      inversion 1 as [|? ? [Hx _] _]. congruence.
    + destruct (contains error syntax_error) eqn:Es.
      * rewrite collect_fixes_acc.
        destruct (collect_fixes rest []) as [more|]; [|discriminate].
        intros [= <-]. destruct (IH more eq_refl) as (H1 & H2 & H3).
        cbn. split.
        { rewrite H1. split; [by right|].
          inversion 1 as [? ? Hx|]; [congruence|done]. }
        split; [split; [discriminate|]|lia].
        inversion 1 as [|? ? [_ Hx] _]. congruence.
      * intros H. destruct (IH fixes H) as (H1 & H2 & H3).
        split.
        { rewrite H1. split; [by right|].
          inversion 1 as [? ? Hx|]; [congruence|done]. }
        split; [|cbn; lia].
        rewrite H2. split; [by constructor|by inversion 1].
Qed.

(** X26: when [debug_app] returns, automated fixes are possible exactly
    when some error mentions [ModuleNotFoundError]; the list of fixes is
    empty exactly when no error mentions [ModuleNotFoundError] or
    [SyntaxError] (such errors are dropped without a trace); and there are
    never more fixes than errors. *)
Theorem debug_app_flags_dependencies errors fixes flag :
  debug_app errors = Ret (fixes, flag) ->
  (flag = true <->
   Exists (fun error => contains error module_not_found = true) errors)
  /\ (fixes = [] <->
      Forall (fun error => contains error module_not_found = false
                           /\ contains error syntax_error = false) errors)
  /\ (length fixes <= length errors)%nat.
Proof.
  unfold debug_app.
  destruct (collect_fixes errors []) as [f|] eqn:E; [|discriminate].
  intros [= <- <-]. by apply collect_fixes_facts.
Qed.

Lemma debug_app_flags_dependencies_witness :
  debug_app [missing_requests; bad_syntax]
    = Ret ([DependencyFix (py "requests") (py "pip install requests");
            SyntaxFix bad_syntax (py "Requires manual code review")], true)
  /\ (true = true <->
      Exists (fun error => contains error module_not_found = true)
             [missing_requests; bad_syntax]).
Proof.
  split; [reflexivity|].
  apply (debug_app_flags_dependencies [missing_requests; bad_syntax]
           [DependencyFix (py "requests") (py "pip install requests");
            SyntaxFix bad_syntax (py "Requires manual code review")] true
           eq_refl).
Defined.

End AppChecksFacts.

(* ===================================================================== *)
(** ** Facts about AppManager.save_app *)
(* ===================================================================== *)

Module ManagerFacts.
Import Tools Examples Manager MoreExamples.

#[local] Arguments py : simpl never.

Lemma named_true name app : named name app = true <-> app_name app = name.
Proof. unfold named, str_eqb. apply bool_decide_eq_true. Qed.

Lemma update_first_names name info entries entries' :
  app_name info = name ->
  update_first name info entries = Some entries' ->
  List.map app_name entries' = List.map app_name entries.
Proof.
  intros Hn. revert entries'.
  induction entries as [|app rest IH]; intros entries'; cbn; [discriminate|].
  destruct (named name app) eqn:E.
  - intros [= <-]. cbn. apply named_true in E. congruence.
  - destruct (update_first name info rest) as [rest'|]; [|discriminate].
    intros [= <-]. cbn. by rewrite (IH rest').
Qed.

Lemma update_first_none name info entries :
  update_first name info entries = None ->
  ~ In name (List.map app_name entries).
Proof.
  induction entries as [|app rest IH]; cbn; [tauto|].
  destruct (named name app) eqn:E; [discriminate|].
  destruct (update_first name info rest); [discriminate|].
  intros _ [H|H]; [|by apply IH].
  apply named_true in H. congruence.
Qed.

Lemma record_app_names info entries :
  List.map app_name (record_app info entries) = List.map app_name entries
  \/ (List.map app_name (record_app info entries)
      = List.map app_name entries ++ [app_name info]
      /\ ~ In (app_name info) (List.map app_name entries)).
Proof.
  unfold record_app.
  destruct (update_first (app_name info) info entries) as [entries'|] eqn:E.
  - left. by eapply update_first_names.
  - right. split; [by rewrite List.map_app|]. by eapply update_first_none.
Qed.

Lemma find_update_first name info entries entries' other :
  app_name info = name ->
  update_first name info entries = Some entries' ->
  List.find (named other) entries'
  = if str_eqb name other then Some info else List.find (named other) entries.
Proof.
  intros Hn. revert entries'.
  induction entries as [|app rest IH]; intros entries'; cbn; [discriminate|].
  destruct (named name app) eqn:E.
  - intros [= <-]. cbn. apply named_true in E.
    unfold named at 1 3. rewrite Hn, E.
    by destruct (str_eqb name other).
  - destruct (update_first name info rest) as [rest'|]; [|discriminate].
    intros [= <-]. cbn. rewrite (IH rest' eq_refl).
    destruct (named other app) eqn:E'; [|done].
    destruct (str_eqb name other) eqn:E''; [|done].
    apply named_true in E'. unfold str_eqb in E''.
    apply bool_decide_eq_true in E''. subst other.
    apply named_true in E'. congruence.
Qed.

Lemma find_none_absent name entries :
  ~ In name (List.map app_name entries) -> List.find (named name) entries = None.
Proof.
  induction entries as [|app rest IH]; cbn; [done|].
  intros H. destruct (named name app) eqn:E.
  - apply named_true in E. exfalso. apply H. by left.
  - apply IH. intros Hin. apply H. by right.
Qed.

Lemma find_snoc (f : app_info -> bool) entries x :
  List.find f (entries ++ [x])
  = match List.find f entries with
    | Some a => Some a
    | None => if f x then Some x else None
    end.
Proof.
  induction entries as [|a rest IH]; cbn; [done|]. by destruct (f a).
Qed.

Lemma find_record_app_same info entries :
  List.find (named (app_name info)) (record_app info entries) = Some info.
Proof.
  unfold record_app.
  destruct (update_first (app_name info) info entries) as [entries'|] eqn:E.
  - rewrite (find_update_first _ _ _ _ (app_name info) eq_refl E).
    unfold str_eqb. by rewrite bool_decide_eq_true_2.
  - apply update_first_none in E. rewrite find_snoc, find_none_absent by done.
    unfold named, str_eqb. by rewrite bool_decide_eq_true_2.
Qed.

Lemma find_record_app_other info entries other :
  app_name info <> other ->
  List.find (named other) (record_app info entries)
  = List.find (named other) entries.
Proof.
  intros Hne. unfold record_app.
  destruct (update_first (app_name info) info entries) as [entries'|] eqn:E.
  - rewrite (find_update_first _ _ _ _ other eq_refl E).
    unfold str_eqb. by rewrite bool_decide_eq_false_2.
  - rewrite find_snoc. destruct (List.find (named other) entries); [done|].
    unfold named, str_eqb. by rewrite bool_decide_eq_false_2.
Qed.

Lemma write_files_ok h app_dir files saved_files m :
  Forall (fun f => write h (os_path_join h app_dir (fst f)) = Ret tt) files ->
  write_files h app_dir files saved_files m
  = (Ret (saved_files ++ List.map fst files),
     {| catalogue := catalogue m;
        calls := calls m ++ List.map (written h app_dir) files |}).
Proof.
  intros H. revert saved_files m.
  induction H as [|[filename content] rest Hw _ IH]; intros saved_files m.
  - cbn. rewrite !app_nil_r. by destruct m.
  - cbn [write_files]. unfold bind, note. cbn in Hw. rewrite Hw.
    rewrite IH. cbn. by rewrite <- !app_assoc.
Qed.

Lemma write_files_fails h app_dir ok filename content rest e saved_files m :
  Forall (fun f => write h (os_path_join h app_dir (fst f)) = Ret tt) ok ->
  write h (os_path_join h app_dir filename) = Raise e ->
  write_files h app_dir (ok ++ (filename, content) :: rest) saved_files m
  = (Raise (OtherException (py "Failed to save file " ++ filename ++ py ": "
                              ++ str_of_exn e)),
     {| catalogue := catalogue m;
        calls := calls m ++ List.map (written h app_dir) ok
                   ++ [WriteFile (os_path_join h app_dir filename) content] |}).
Proof.
  intros H He. revert saved_files m.
  induction H as [|[fn c] oks Hw _ IH]; intros saved_files m.
  - cbn [app write_files]. unfold bind, note. rewrite He. done.
  - cbn [app write_files]. unfold bind, note. cbn in Hw. rewrite Hw.
    rewrite IH. cbn. by rewrite <- !app_assoc.
Qed.

Lemma write_files_keeps_catalogue h app_dir files saved_files m :
  catalogue (snd (write_files h app_dir files saved_files m)) = catalogue m.
Proof.
  revert saved_files m.
  induction files as [|[filename content] rest IH]; intros saved_files m; [done|].
  cbn [write_files]. unfold bind, note.
  destruct (write h _); [|done]. by rewrite IH.
Qed.

Section Saved.
Variables (h : host) (name description : pystr) (files : list (pystr * pystr)).
Variable (m : manager).
Hypothesis Hmk : makedirs h = Ret tt.
Hypothesis Hw :
  Forall (fun f => write h (os_path_join h (app_directory h name) (fst f))
                   = Ret tt) files.

(** The whole call when the directory is made and every file is
    written. *)
Lemma save_app_written :
  save_app h name description files m
  = match dump h with
    | Ret _ =>
        (Ret (app_directory h name),
         {| catalogue :=
              {| apps := record_app (saved_info h name description files)
                           (apps (catalogue m));
                 last_updated := saved h |};
            calls := (calls m ++ [Makedirs (app_directory h name)]
                        ++ List.map (written h (app_directory h name)) files)
                       ++ [DumpLibrary
                             {| apps := record_app
                                          (saved_info h name description files)
                                          (apps (catalogue m));
                                last_updated := saved h |}] |})
    | Raise e =>
        (Raise (OtherException
                  (py "Failed to save app: " ++ py "Failed to save library: "
                     ++ str_of_exn e)),
         {| catalogue :=
              {| apps := record_app (saved_info h name description files)
                           (apps (catalogue m));
                 last_updated := saved h |};
            calls := ((calls m ++ [Makedirs (app_directory h name)]
                         ++ List.map (written h (app_directory h name)) files)
                        ++ [DumpLibrary
                              {| apps := record_app
                                           (saved_info h name description files)
                                           (apps (catalogue m));
                                 last_updated := saved h |}])
                       ++ (if app_dir_exists h
                           then [RemoveTree (app_directory h name)]
                           else []) |})
    end.
Proof.
  unfold save_app, try_except. fold (app_directory h name).
  unfold bind at 1. unfold note at 1.
  unfold bind at 1. unfold of_outcome. rewrite Hmk.
  unfold bind at 1. rewrite (write_files_ok _ _ _ _ _ Hw).
  cbn. unfold save_library. cbn.
  destruct (dump h) as [[]|e]; cbn.
  - by rewrite <- !app_assoc.
  - destruct (app_dir_exists h); cbn; rewrite <- ?app_assoc; cbn;
      rewrite ?app_nil_r; by rewrite <- ?app_assoc.
Qed.

(** X27: after a [save_app] that succeeds, looking the app up by its name
    gives the entry just made (name, description, directory and the file
    names in the order of [files]), whether the name was new or not, and
    the entries of all other names are as before. *)
Theorem saved_app_is_listed :
  dump h = Ret tt ->
  fst (save_app h name description files m) = Ret (app_directory h name)
  /\ find_app name (snd (save_app h name description files m))
     = Some (saved_info h name description files)
  /\ forall other, other <> name ->
       find_app other (snd (save_app h name description files m))
       = find_app other m.
Proof.
  intros Hd. rewrite save_app_written, Hd. cbn.
  split; [done|]. unfold find_app, get_app_library. cbn. split.
  - apply (find_record_app_same (saved_info h name description files)).
  - intros other Hne. apply find_record_app_other. cbn. congruence.
Qed.

(** X28: when every file is written and writing the library file fails,
    [save_app] raises, yet the library in memory already lists the app,
    and the directory of the app is nevertheless removed when it
    exists. *)
Theorem failed_dump_leaves_library_ahead_of_disk e :
  dump h = Raise e ->
  fst (save_app h name description files m)
  = Raise (OtherException
             (py "Failed to save app: " ++ py "Failed to save library: "
                ++ str_of_exn e))
  /\ find_app name (snd (save_app h name description files m))
     = Some (saved_info h name description files)
  /\ (app_dir_exists h = true ->
      last (calls (snd (save_app h name description files m)))
      = Some (RemoveTree (app_directory h name))).
Proof.
  intros Hd. rewrite save_app_written, Hd. cbn.
  split; [done|]. split.
  - unfold find_app, get_app_library. cbn.
    apply (find_record_app_same (saved_info h name description files)).
  - intros ->. by rewrite last_snoc.
Qed.

End Saved.

Lemma healthy_writes name :
  Forall (fun f => write healthy
                     (os_path_join healthy (app_directory healthy name) (fst f))
                   = Ret tt) two_files.
Proof. repeat constructor. Defined.

Lemma saved_app_is_listed_witness :
  fst (save_app healthy (py "My App") (py "a demo") two_files new_manager)
    = Ret (py "generated_apps/myapp")
  /\ find_app (py "My App")
       (snd (save_app healthy (py "My App") (py "a demo") two_files
               new_manager))
     = Some {| app_name := py "My App"; app_description := py "a demo";
               app_created_at := py "2025-01-01T10:00:00";
               app_path := py "generated_apps/myapp";
               app_files := [py "agent.py"; py "ui.py"] |}.
Proof.
  destruct (saved_app_is_listed healthy (py "My App") (py "a demo") two_files
              new_manager eq_refl (healthy_writes (py "My App")) eq_refl)
    as (H1 & H2 & _).
  split; [exact H1 | exact H2].
Defined.

Lemma failed_dump_leaves_library_ahead_of_disk_witness :
  dump cannot_dump = Raise disk_full
  /\ find_app (py "My App")
       (snd (save_app cannot_dump (py "My App") (py "a demo") two_files
               new_manager))
     = Some (saved_info cannot_dump (py "My App") (py "a demo") two_files)
  /\ last (calls (snd (save_app cannot_dump (py "My App") (py "a demo")
                         two_files new_manager)))
     = Some (RemoveTree (py "generated_apps/myapp")).
Proof.
  assert (Forall (fun f => write cannot_dump
                     (os_path_join cannot_dump
                        (app_directory cannot_dump (py "My App")) (fst f))
                   = Ret tt) two_files) as Hw by repeat constructor.
  destruct (failed_dump_leaves_library_ahead_of_disk cannot_dump (py "My App")
              (py "a demo") two_files new_manager eq_refl Hw disk_full eq_refl)
    as (_ & H2 & H3).
  split; [reflexivity|]. split; [exact H2 | exact (H3 eq_refl)].
Defined.

Lemma save_app_write_fails h name description ok filename content rest e m :
  makedirs h = Ret tt ->
  Forall (fun f => write h (os_path_join h (app_directory h name) (fst f))
                   = Ret tt) ok ->
  write h (os_path_join h (os_path_join h apps_dir (safe_name h name)) filename)
    = Raise e ->
  save_app h name description (ok ++ (filename, content) :: rest) m
  = (Raise (OtherException
              (py "Failed to save app: " ++ py "Failed to save file "
                 ++ filename ++ py ": " ++ str_of_exn e)),
     {| catalogue := catalogue m;
        calls := (calls m
                    ++ [Makedirs (os_path_join h apps_dir (safe_name h name))]
                    ++ List.map (written h (os_path_join h apps_dir
                                              (safe_name h name))) ok
                    ++ [WriteFile (os_path_join h (os_path_join h apps_dir
                                                     (safe_name h name))
                                     filename) content])
                   ++ (if app_dir_exists h
                       then [RemoveTree (os_path_join h apps_dir
                                           (safe_name h name))]
                       else []) |}).
Proof.
  intros Hmk Hok He.
  unfold save_app, try_except.
  unfold bind at 1. unfold note at 1.
  unfold bind at 1. unfold of_outcome. rewrite Hmk.
  unfold bind at 1. rewrite (write_files_fails _ _ _ _ _ _ _ _ _ Hok He).
  cbn. destruct (app_dir_exists h); cbn;
    rewrite <- ?app_assoc; cbn; rewrite ?app_nil_r; by rewrite <- ?app_assoc.
Qed.

(** X29: when writing one of the files fails, [save_app] raises with the
    name of that file in its message, the library is exactly as before,
    and removing the directory of the app is the last thing done when
    that directory exists. *)
Theorem failed_write_keeps_library h name description ok filename content
    rest e m :
  makedirs h = Ret tt ->
  Forall (fun f => write h (os_path_join h (app_directory h name) (fst f))
                   = Ret tt) ok ->
  write h (os_path_join h (os_path_join h apps_dir (safe_name h name)) filename)
    = Raise e ->
  fst (save_app h name description (ok ++ (filename, content) :: rest) m)
  = Raise (OtherException
             (py "Failed to save app: " ++ py "Failed to save file "
                ++ filename ++ py ": " ++ str_of_exn e))
  /\ catalogue (snd (save_app h name description
                       (ok ++ (filename, content) :: rest) m))
     = catalogue m
  /\ (app_dir_exists h = true ->
      last (calls (snd (save_app h name description
                          (ok ++ (filename, content) :: rest) m)))
      = Some (RemoveTree (os_path_join h apps_dir (safe_name h name)))).
Proof.
  intros Hmk Hok He.
  rewrite (save_app_write_fails _ _ _ _ _ _ _ _ _ Hmk Hok He). cbn.
  split; [done|]. split; [done|]. intros ->. by rewrite last_snoc.
Qed.

Lemma failed_write_keeps_library_witness :
  write cannot_write_ui (py "generated_apps/myapp/ui.py") = Raise disk_full
  /\ fst (save_app cannot_write_ui (py "My App") (py "a demo")
            ([(py "agent.py", py "print(1)")]
               ++ (py "ui.py", py "import streamlit") :: []) new_manager)
     = Raise (OtherException
                (py "Failed to save app: " ++ py "Failed to save file "
                   ++ py "ui.py" ++ py ": " ++ str_of_exn disk_full))
  /\ catalogue (snd (save_app cannot_write_ui (py "My App") (py "a demo")
                       ([(py "agent.py", py "print(1)")]
                          ++ (py "ui.py", py "import streamlit") :: [])
                       new_manager))
     = catalogue new_manager.
Proof.
  assert (Forall (fun f => write cannot_write_ui
                     (os_path_join cannot_write_ui
                        (os_path_join cannot_write_ui apps_dir
                           (safe_name cannot_write_ui (py "My App"))) (fst f))
                   = Ret tt) [(py "agent.py", py "print(1)")]) as Hw
    by repeat constructor.
  destruct (failed_write_keeps_library cannot_write_ui (py "My App")
              (py "a demo") [(py "agent.py", py "print(1)")] (py "ui.py")
              (py "import streamlit") [] disk_full new_manager
              eq_refl Hw eq_refl) as (H1 & H2 & _).
  split; [reflexivity|]. split; [exact H1 | exact H2].
Defined.

Lemma save_app_entries h name description files m :
  get_app_library (snd (save_app h name description files m))
    = get_app_library m
  \/ exists info,
       app_name info = name
       /\ get_app_library (snd (save_app h name description files m))
          = record_app info (get_app_library m).
Proof.
  unfold save_app, try_except, get_app_library, bind, note, of_outcome,
    set_apps, save_library, ret, raise.
  destruct (makedirs h) as [[]|e]; cbn.
  2:{ left. by destruct (app_dir_exists h). }
  pose proof (write_files_keeps_catalogue h
                (os_path_join h apps_dir (safe_name h name)) files []
                {| catalogue := catalogue m;
                   calls := calls m ++ [Makedirs (os_path_join h apps_dir
                                                    (safe_name h name))] |})
    as Hk.
  destruct (write_files _ _ _ _ _) as [[saved_files|e] m1]; cbn in Hk |- *.
  - right. eexists. split; [|destruct (dump h); cbn;
      [|destruct (app_dir_exists h); cbn]; rewrite Hk; reflexivity]. done.
  - left. destruct (app_dir_exists h); cbn; by rewrite Hk.
Qed.

(** X30: whatever the file system does, [save_app] keeps the names of the
    library distinct when they were, and the library never shrinks and
    grows by at most one entry. *)
Theorem save_app_keeps_names_distinct h name description files m :
  NoDup (List.map app_name (get_app_library m)) ->
  NoDup (List.map app_name
           (get_app_library (snd (save_app h name description files m))))
  /\ (length (get_app_library m)
      <= length (get_app_library (snd (save_app h name description files m)))
      <= length (get_app_library m) + 1)%nat.
Proof.
  intros Hnd.
  destruct (save_app_entries h name description files m) as [->|(info & Hn & ->)].
  - split; [done|lia].
  - destruct (record_app_names info (get_app_library m)) as [Heq|[Heq Hfresh]].
    + rewrite Heq. split; [done|].
      apply (f_equal (@length _)) in Heq. rewrite !length_map in Heq. lia.
    + rewrite Heq. split.
      * apply NoDup_app. split; [done|]. split.
        -- intros x Hx Hx'. apply list_elem_of_singleton in Hx'. subst x.
           apply Hfresh. by apply list_elem_of_In.
        -- apply NoDup_singleton.
      * apply (f_equal (@length _)) in Heq.
        rewrite length_app, !length_map in Heq. cbn in Heq. lia.
Qed.

Lemma save_app_keeps_names_distinct_witness :
  NoDup (List.map app_name (get_app_library new_manager))
  /\ NoDup (List.map app_name
              (get_app_library
                 (snd (save_app healthy (py "My App") (py "a demo") two_files
                         new_manager)))).
Proof.
  assert (NoDup (List.map app_name (get_app_library new_manager))) as H
    by constructor.
  split; [exact H|].
  apply (save_app_keeps_names_distinct healthy (py "My App") (py "a demo")
           two_files new_manager H).
Defined.

End ManagerFacts.
